(** * News_Agent: the semantic content index, its data model and the tool wrapper

    A shallow embedding of
      - [src/core/models.py]      ([ContentItem] and its quality-level validator),
      - [src/core/exceptions.py]  (the exception classes that are raised),
      - [src/tools/base.py]       ([ToolResult], [NewsAgentBaseTool._run]),
      - [src/tools/storage/vector_store.py] ([ChromaVectorStoreTool]),
      - [src/core/config.py]      (the log-level validator),
      - [src/tools/data_sources/arxiv_tool.py] (the fetching methods).

    Conventions.
      - A Python [str] is the list of its code points ([pystr]); slicing and
        [len] count code points, as Python does.
      - A Python [float] is idealised as a rational ([Q]); rounding and NaN are
        outside the model.
      - A call that may raise returns a [result]; code that also touches the
        Chroma collection runs in the state-and-exception monad [M]. The
        exceptions of a [result] are the instances of [Exception]; those
        that derive from [BaseException] alone, which [except Exception]
        lets through, appear in [Module Base]. Logging is left out.
      - chromadb, sentence-transformers, [json] and [datetime] are libraries
        the repository calls; they enter as parameters of the sections below,
        and [Module Reference] gives executable instances of them. *)

From Stdlib Require Import List ZArith NArith QArith Lia Lqa Bool String Ascii Sorted.
Import ListNotations.

Set Implicit Arguments.

(* ===================================================================== *)
(** ** Python values *)
(* ===================================================================== *)

(** A Python [str]: the sequence of its Unicode code points. *)
Definition pystr := list N.

(** An ASCII literal as a [pystr]. *)
Definition lit (s : string) : pystr :=
  map N_of_ascii (list_ascii_of_string s).

Fixpoint pystr_eqb (a b : pystr) : bool :=
  match a, b with
  | [], [] => true
  | x :: a', y :: b' => N.eqb x y && pystr_eqb a' b'
  | _, _ => false
  end.

(** [sep.join(parts)] *)
Fixpoint py_join (sep : pystr) (parts : list pystr) : pystr :=
  match parts with
  | [] => []
  | [p] => p
  | p :: rest => p ++ sep ++ py_join sep rest
  end.

(** [l[:n]] for a Python int [n]: a negative bound counts from the end. *)
Definition py_slice_to {A} (n : Z) (l : list A) : list A :=
  if (0 <=? n)%Z then firstn (Z.to_nat n) l
  else firstn (List.length l - Z.to_nat (- n)) l.

(** Truthiness of a [str] or a [list]: non-empty. *)
Definition truthy {A} (l : list A) : bool :=
  match l with [] => false | _ => true end.

(* ===================================================================== *)
(** ** Exceptions ([src/core/exceptions.py] and the built-ins that occur) *)
(* ===================================================================== *)

(** The classes of the exceptions the modelled code raises or receives.
    Every one of them derives from [Exception], so [except Exception]
    catches all of them. [CollaboratorError] stands for whatever a called
    library (the embedding model, the collection, [json]) raises. *)
Inductive exc_class : Type :=
  | NameError
  | KeyError
  | IndexError
  | TypeError
  | ValueError
  | ValidationError
  | CollaboratorError
  | NewsAgentException
  | VectorStoreException.

(** An exception instance: its class and [str(e)]. For a
    [NewsAgentException] that is the [message] given to the constructor. *)
Record exn : Type := mk_exn { exn_class : exc_class; exn_str : pystr }.

Inductive result (A : Type) : Type :=
  | Ok (a : A)
  | Raise (e : exn).
Arguments Ok {A} a.
Arguments Raise {A} e.

Definition is_ok {A} (r : result A) : bool :=
  match r with Ok _ => true | Raise _ => false end.

(** The state-and-exception monad: a computation over a store [St] that
    returns a value or raises, and leaves a store behind either way. *)
Definition M (St A : Type) : Type := St -> result A * St.

Definition ret {St A} (a : A) : M St A := fun s => (Ok a, s).

Definition raise {St A} (e : exn) : M St A := fun s => (Raise e, s).

Definition bind {St A B} (m : M St A) (k : A -> M St B) : M St B :=
  fun s =>
    match m s with
    | (Ok a, s') => k a s'
    | (Raise e, s') => (Raise e, s')
    end.

(** [try: body  except Exception as e: handler(e)] *)
Definition try_except {St A} (body : M St A) (handler : exn -> M St A) : M St A :=
  fun s =>
    match body s with
    | (Ok a, s') => (Ok a, s')
    | (Raise e, s') => handler e s'
    end.

(** A call that cannot touch the store. *)
Definition pure_call {St A} (r : result A) : M St A := fun s => (r, s).

(** A call that reads the store. *)
Definition read_call {St A} (f : St -> result A) : M St A := fun s => (f s, s).

Declare Scope py_scope.
Delimit Scope py_scope with py.
Notation "x <- m ;; k" := (bind m (fun x => k))
  (at level 61, m at next level, right associativity) : py_scope.
Notation "m ;;; k" := (bind m (fun _ => k))
  (at level 61, right associativity) : py_scope.
Local Open Scope py_scope.

(** [l[i]] for [i >= 0]. *)
Definition py_index {A} (l : list A) (i : nat) : result A :=
  match nth_error l i with
  | Some a => Ok a
  | None => Raise (mk_exn IndexError (lit "list index out of range"))
  end.

(* ===================================================================== *)
(** ** Dictionaries with scalar values (Chroma metadata, tool metadata) *)
(* ===================================================================== *)

Inductive scalar : Type :=
  | VStr (s : pystr)
  | VNum (q : Q).

(** A [dict] with [str] keys, in insertion order. *)
Definition pydict := list (pystr * scalar).

Fixpoint dict_lookup (d : pydict) (k : pystr) : option scalar :=
  match d with
  | [] => None
  | (k', v) :: d' => if pystr_eqb k' k then Some v else dict_lookup d' k
  end.

(** [d[k]] *)
Definition dict_getitem (d : pydict) (k : pystr) : result scalar :=
  match dict_lookup d k with
  | Some v => Ok v
  | None => Raise (mk_exn KeyError (lit "'" ++ k ++ lit "'"))
  end.

(** [d.get(k, default)] *)
Definition dict_get (d : pydict) (k : pystr) (default : scalar) : scalar :=
  match dict_lookup d k with
  | Some v => v
  | None => default
  end.

(** A value used where a [str] is required. *)
Definition as_str (v : scalar) : result pystr :=
  match v with
  | VStr s => Ok s
  | VNum _ => Raise (mk_exn TypeError (lit "expected str"))
  end.

(** A value used where a [float] is required. *)
Definition as_float (v : scalar) : result Q :=
  match v with
  | VNum q => Ok q
  | VStr _ => Raise (mk_exn ValidationError (lit "value is not a valid float"))
  end.

(* ===================================================================== *)
(** ** [src/core/models.py] *)
(* ===================================================================== *)

Module Models.

Inductive ContentType : Type :=
  | ACADEMIC_PAPER | BLOG_POST | NEWS_ARTICLE
  | SOCIAL_POST | TECHNICAL_REPORT | CONFERENCE_PAPER.

(** [ContentType.value] *)
Definition ContentType_value (t : ContentType) : pystr :=
  match t with
  | ACADEMIC_PAPER => lit "academic_paper"
  | BLOG_POST => lit "blog_post"
  | NEWS_ARTICLE => lit "news_article"
  | SOCIAL_POST => lit "social_post"
  | TECHNICAL_REPORT => lit "technical_report"
  | CONFERENCE_PAPER => lit "conference_paper"
  end.

Definition all_content_types : list ContentType :=
  [ACADEMIC_PAPER; BLOG_POST; NEWS_ARTICLE;
   SOCIAL_POST; TECHNICAL_REPORT; CONFERENCE_PAPER].

(** Validation of a [content_type] argument given as a string. *)
Definition ContentType_of_value (s : pystr) : result ContentType :=
  match find (fun t => pystr_eqb (ContentType_value t) s) all_content_types with
  | Some t => Ok t
  | None => Raise (mk_exn ValidationError (lit "value is not a valid enumeration member"))
  end.

Inductive ProcessingStatus : Type :=
  | PENDING | PROCESSING | COMPLETED | FAILED | SKIPPED.

Inductive QualityLevel : Type :=
  | HIGH | MEDIUM | LOW | VERY_LOW.

(** Timestamps: microseconds since the epoch. *)
Definition datetime := Z.

Record ContentItem : Type := mk_ContentItem {
  id : pystr;
  title : pystr;
  content : pystr;
  summary : option pystr;
  url : pystr;
  content_type : ContentType;
  source_id : pystr;
  source_name : pystr;
  authors : list pystr;
  tags : list pystr;
  categories : list pystr;
  language : pystr;
  published_at : datetime;
  collected_at : datetime;
  processed_at : option datetime;
  quality_score : Q;
  quality_level : option QualityLevel;
  relevance_score : Q;
  importance_score : Q;
  processing_status : ProcessingStatus;
  error_message : option pystr;
  metadata : pydict
}.

(** [score >= bound] *)
Definition ge_float (score bound : Q) : bool := Qle_bool bound score.

(** The validator of [quality_level] ([pre=True, always=True]). [v] is the
    value given for [quality_level] ([None] when absent); [values] holds
    [quality_score] when that field, declared before it, validated. *)
Definition set_quality_level (v : option QualityLevel) (values : option Q)
  : option QualityLevel :=
  match v, values with
  | None, Some score =>
      if ge_float score (8 # 10) then Some HIGH
      else if ge_float score (6 # 10) then Some MEDIUM
      else if ge_float score (3 # 10) then Some LOW
      else Some VERY_LOW
  | _, _ => v
  end.

(** [Field(ge=0.0, le=1.0)] *)
Definition validate_unit_interval (x : Q) : option Q :=
  if Qle_bool 0 x && Qle_bool x 1 then Some x else None.

(** The arguments of [ContentItem(...)] that have no default, followed by
    the optional ones the repository passes. *)
Record ContentItem_args : Type := mk_args {
  a_id : pystr;
  a_title : pystr;
  a_content : pystr;
  a_summary : option pystr;
  a_url : pystr;
  a_content_type : ContentType;
  a_source_id : pystr;
  a_source_name : pystr;
  a_authors : list pystr;
  a_tags : list pystr;
  a_categories : list pystr;
  a_published_at : datetime;
  a_quality_score : Q;
  a_quality_level : option QualityLevel
}.

(** The constructor call of [ContentItem]: the fields are validated in declaration order; a
    field that fails is left out of [values]; any failure makes the call
    raise. [now] is what [datetime.utcnow] returns for [collected_at]. *)
Definition ContentItem_init (now : datetime) (a : ContentItem_args)
  : result ContentItem :=
  let values_quality_score := validate_unit_interval (a_quality_score a) in
  let level := set_quality_level (a_quality_level a) values_quality_score in
  match values_quality_score with
  | None =>
      Raise (mk_exn ValidationError
               (lit "quality_score: ensure this value is within [0, 1]"))
  | Some score =>
      Ok {| id := a_id a; title := a_title a; content := a_content a;
            summary := a_summary a; url := a_url a;
            content_type := a_content_type a;
            source_id := a_source_id a; source_name := a_source_name a;
            authors := a_authors a; tags := a_tags a;
            categories := a_categories a; language := lit "en";
            published_at := a_published_at a; collected_at := now;
            processed_at := None;
            quality_score := score; quality_level := level;
            relevance_score := 0; importance_score := 0;
            processing_status := PENDING; error_message := None;
            metadata := [] |}
  end.

(** [item.quality_score = score]. [ContentItem] declares no [Config], so
    assignment is not validated and runs no validator: only the assigned
    attribute changes. *)
Definition setattr_quality_score (item : ContentItem) (score : Q) : ContentItem :=
  {| id := id item; title := title item; content := content item;
     summary := summary item; url := url item;
     content_type := content_type item;
     source_id := source_id item; source_name := source_name item;
     authors := authors item; tags := tags item;
     categories := categories item; language := language item;
     published_at := published_at item; collected_at := collected_at item;
     processed_at := processed_at item;
     quality_score := score; quality_level := quality_level item;
     relevance_score := relevance_score item;
     importance_score := importance_score item;
     processing_status := processing_status item;
     error_message := error_message item;
     metadata := metadata item |}.

End Models.

(* ===================================================================== *)
(** ** [src/tools/base.py] *)
(* ===================================================================== *)

Module Base.

(** [ToolResult]; [D] is the type of what a tool puts in [data]. *)
Record ToolResult (D : Type) : Type := mk_ToolResult {
  success : bool;
  data : option D;
  error : option pystr;
  metadata : pydict;
  execution_time : option Q
}.

(** The exceptions that derive from [BaseException] and not from
    [Exception]: [except Exception] does not catch them. *)
Inductive base_exception : Type :=
  | KeyboardInterrupt
  | SystemExit
  | GeneratorExit.

(** How a call of a tool's method ends: it returns or raises an instance
    of [Exception], or an exception escapes that [except Exception] does
    not catch. *)
Inductive ending (A : Type) : Type :=
  | Ended (r : result A)
  | Escaped (b : base_exception).
Arguments Ended {A} r.
Arguments Escaped {A} b.

(** A method of a tool, over the tool's store. *)
Definition Tool (St A : Type) : Type := St -> ending A * St.

Definition returns {St A} (a : A) : Tool St A := fun s => (Ended (Ok a), s).

(** [try: body  except Exception as e: handler(e)], for a body that any
    exception may leave. *)
Definition try_except_Exception {St A} (body : Tool St A)
    (handler : exn -> Tool St A) : Tool St A :=
  fun s =>
    match body s with
    | (Ended (Ok a), s') => (Ended (Ok a), s')
    | (Ended (Raise e), s') => handler e s'
    | (Escaped b, s') => (Escaped b, s')
    end.

(** A method that only instances of [Exception] can leave, as a tool's
    method. *)
Definition tool_of {St A} (method : pystr -> M St A) : pystr -> Tool St A :=
  fun query s => let (r, s') := method query s in (Ended r, s').

Section Run.

(** The tool's store, the type of its data, its [name] and its
    [_execute], which every subclass supplies. *)
Variables (St D : Type).
Variable name : pystr.
Variable _execute : pystr -> Tool St (ToolResult D).

(** What [_run] returns from its [except] branch. *)
Definition failure_result (e : exn) (query : pystr) : ToolResult D :=
  {| success := false;
     data := None;
     error := Some (exn_str e);
     metadata := [(lit "tool_name", VStr name); (lit "query", VStr query)];
     execution_time := None |}.

(** [NewsAgentBaseTool._run]; the logger calls are left out. *)
Definition _run (query : pystr) : Tool St (ToolResult D) :=
  try_except_Exception
    (_execute query)
    (fun e => returns (failure_result e query)).

End Run.

End Base.

(* ===================================================================== *)
(** ** [src/tools/storage/vector_store.py] *)
(* ===================================================================== *)

Module VectorStore.

Import Models.

(** *** What the module calls *)

(** What [collection.get(ids=[id], include=["documents", "metadatas"])]
    returns: three parallel lists. *)
Record GetResult : Type := mk_GetResult {
  g_ids : list pystr;
  g_documents : list pystr;
  g_metadatas : list pydict
}.

(** What [collection.query(query_embeddings=[e], ...)] returns: for each
    query embedding, four parallel lists. *)
Record QueryResult : Type := mk_QueryResult {
  q_ids : list (list pystr);
  q_documents : list (list pystr);
  q_metadatas : list (list pydict);
  q_distances : list (list Q)
}.

(** The part of chromadb's [Collection] that the tool calls, over a
    collection state [Coll]. Each call takes the single id, embedding,
    document and metadata the tool passes in its one-element lists. *)
Record Collection (Coll : Type) : Type := mk_Collection {
  coll_add : pystr -> list Q -> pystr -> pydict -> M Coll unit;
  coll_get : pystr -> Coll -> result GetResult;
  coll_query : list Q -> Z -> option pydict -> Coll -> result QueryResult;
  coll_delete : pystr -> M Coll unit;
  coll_count : Coll -> result Z
}.

(** The other libraries: [SentenceTransformer.encode(...).tolist()],
    [json.dumps] and [json.loads] on lists of strings,
    [datetime.isoformat], [datetime.fromisoformat], [datetime.utcnow]. *)
Record Libraries : Type := mk_Libraries {
  encode : pystr -> result (list Q);
  json_dumps : list pystr -> pystr;
  json_loads : pystr -> result (list pystr);
  isoformat : datetime -> pystr;
  fromisoformat : pystr -> result datetime;
  utcnow : datetime
}.

(** The names bound at module level in [vector_store.py]: its imports and
    the class it defines. *)
Definition module_globals : list string :=
  ["chromadb"; "List"; "Optional"; "Dict"; "Any"; "SentenceTransformer";
   "CallbackManagerForToolRun"; "json"; "StorageTool"; "ToolResult";
   "ContentItem"; "config"; "VectorStoreException";
   "ChromaVectorStoreTool"]%string.

(** Evaluating a name that is neither local nor built-in. *)
Definition load_global (name : string) : result unit :=
  if existsb (String.eqb name) module_globals then Ok tt
  else Raise (mk_exn NameError (lit "name '" ++ lit name ++ lit "' is not defined")).

(** *** String constants of the module *)

(** ["作者: "] *)
Definition authors_prefix : pystr := [20316; 32773; 58; 32]%N.
(** ["标签: "] *)
Definition tags_prefix : pystr := [26631; 31614; 58; 32]%N.
(** ["存储内容失败: "] *)
Definition store_failed : pystr :=
  [23384; 20648; 20869; 23481; 22833; 36133; 58; 32]%N.
(** ["检索内容失败: "] *)
Definition retrieve_failed : pystr :=
  [26816; 32034; 20869; 23481; 22833; 36133; 58; 32]%N.
(** ["搜索失败: "] *)
Definition search_failed : pystr := [25628; 32034; 22833; 36133; 58; 32]%N.
(** ["相似内容搜索失败: "] *)
Definition similar_failed : pystr :=
  [30456; 20284; 20869; 23481; 25628; 32034; 22833; 36133; 58; 32]%N.
(** ["向量搜索失败: "] *)
Definition execute_failed : pystr :=
  [21521; 37327; 25628; 32034; 22833; 36133; 58; 32]%N.

(** [VectorStoreException(f"{prefix}{str(e)}")] *)
Definition wrap (prefix : pystr) (e : exn) : exn :=
  mk_exn VectorStoreException (prefix ++ exn_str e).

(** One element of the lists [search_content] and [search_similar_content]
    return: a dict with the keys [id], [content], [metadata] and
    [similarity_score]. *)
Record SearchResult : Type := mk_SearchResult {
  sr_id : pystr;
  sr_content : pystr;
  sr_metadata : pydict;
  sr_similarity_score : Q
}.

(** Sequencing of calls that raise but touch no store. *)
Definition and_then {A B} (r : result A) (k : A -> result B) : result B :=
  match r with
  | Ok a => k a
  | Raise e => Raise e
  end.

Notation "x <~ r ;; k" := (and_then r (fun x => k))
  (at level 61, r at next level, right associativity) : py_scope.

(** The first (and only) row of a query result's ids and distances. *)
Definition ids0 (results : QueryResult) : list pystr :=
  match q_ids results with ids :: _ => ids | [] => [] end.

Definition distances0 (results : QueryResult) : list Q :=
  match q_distances results with ds :: _ => ds | [] => [] end.

(** A query result whose four rows have the same length. *)
Definition well_formed (results : QueryResult) : Prop :=
  exists ids docs mds ds,
    q_ids results = [ids] /\ q_documents results = [docs]
    /\ q_metadatas results = [mds] /\ q_distances results = [ds]
    /\ List.length docs = List.length ids
    /\ List.length mds = List.length ids
    /\ List.length ds = List.length ids.

(** *** [_prepare_text_for_embedding] *)

(** [text_parts.append(x)] when [cond], as the source's [if] statements. *)
Definition append_if (cond : bool) (text_parts : list pystr) (x : pystr)
  : list pystr :=
  if cond then text_parts ++ [x] else text_parts.

Definition summary_text (c : ContentItem) : pystr :=
  match summary c with Some s => s | None => [] end.

Definition _prepare_text_for_embedding (c : ContentItem) : pystr :=
  let text_parts := [title c] in
  let text_parts :=
    append_if (truthy (summary_text c)) text_parts (summary_text c) in
  let text_parts :=
    append_if (truthy (content c)) text_parts (firstn 1000 (content c)) in
  let text_parts :=
    append_if (truthy (authors c)) text_parts
      (authors_prefix ++ py_join (lit ", ") (authors c)) in
  let text_parts :=
    append_if (truthy (tags c)) text_parts
      (tags_prefix ++ py_join (lit ", ") (tags c)) in
  py_join [10%N] text_parts.

(** *** The result loops *)

(** The dict built for position [i] of a query result. *)
Definition result_at (results : QueryResult) (i : nat) (doc_id : pystr)
  : result SearchResult :=
  documents <~ py_index (q_documents results) 0 ;;
  document <~ py_index documents i ;;
  metadatas <~ py_index (q_metadatas results) 0 ;;
  metadata <~ py_index metadatas i ;;
  distances <~ py_index (q_distances results) 0 ;;
  distance <~ py_index distances i ;;
  Ok {| sr_id := doc_id; sr_content := document; sr_metadata := metadata;
        sr_similarity_score := 1 - distance |}.

(** [for i, doc_id in enumerate(ids): ...] of [search_content], from
    position [i] on, with the results collected so far. *)
Fixpoint search_loop (results : QueryResult) (i : nat) (ids : list pystr)
    (search_results : list SearchResult) : result (list SearchResult) :=
  match ids with
  | [] => Ok search_results
  | doc_id :: rest =>
      r <~ result_at results i doc_id ;;
      search_loop results (S i) rest (search_results ++ [r])
  end.

(** The loop of [search_similar_content]: an entry whose id is [self_id]
    is skipped when [exclude_self]. *)
Fixpoint similar_loop (results : QueryResult) (exclude_self : bool)
    (self_id : pystr) (i : nat) (ids : list pystr)
    (search_results : list SearchResult) : result (list SearchResult) :=
  match ids with
  | [] => Ok search_results
  | doc_id :: rest =>
      if exclude_self && pystr_eqb doc_id self_id
      then similar_loop results exclude_self self_id (S i) rest search_results
      else
        r <~ result_at results i doc_id ;;
        similar_loop results exclude_self self_id (S i) rest (search_results ++ [r])
  end.

Section Tool.

Variable Coll : Type.
Variable collection : Collection Coll.
Variable libs : Libraries.

(** The metadata snapshot [store_content] writes. *)
Definition snapshot (c : ContentItem) : pydict :=
  [ (lit "title", VStr (title c));
    (lit "source_name", VStr (source_name c));
    (lit "content_type", VStr (ContentType_value (content_type c)));
    (lit "published_at", VStr (isoformat libs (published_at c)));
    (lit "quality_score", VNum (quality_score c));
    (lit "url", VStr (url c));
    (lit "authors", VStr (json_dumps libs (authors c)));
    (lit "categories", VStr (json_dumps libs (categories c)));
    (lit "tags", VStr (json_dumps libs (tags c))) ].

Definition store_content (c : ContentItem) : M Coll pystr :=
  try_except
    (let text_to_embed := _prepare_text_for_embedding c in
     embedding <- pure_call (encode libs text_to_embed) ;;
     let metadata := snapshot c in
     coll_add collection (id c) embedding text_to_embed metadata ;;;
     ret (id c))
    (fun e => raise (wrap store_failed e)).

(** The [ContentItem(...)] call of [retrieve_content]: its keyword
    arguments are evaluated left to right, [json.loads] wants a [str],
    the callee [datetime.fromisoformat] is evaluated before its argument,
    and the constructor then checks the type of each argument. *)
Definition rebuild (content_id : pystr) (metadata : pydict) (document : pystr)
  : result ContentItem :=
  v_title <~ dict_getitem metadata (lit "title") ;;
  v_url <~ dict_getitem metadata (lit "url") ;;
  v_content_type <~ dict_getitem metadata (lit "content_type") ;;
  v_source_name <~ dict_getitem metadata (lit "source_name") ;;
  s_authors <~ as_str (dict_get metadata (lit "authors") (VStr (lit "[]"))) ;;
  l_authors <~ json_loads libs s_authors ;;
  s_categories <~ as_str (dict_get metadata (lit "categories") (VStr (lit "[]"))) ;;
  l_categories <~ json_loads libs s_categories ;;
  s_tags <~ as_str (dict_get metadata (lit "tags") (VStr (lit "[]"))) ;;
  l_tags <~ json_loads libs s_tags ;;
  _ <~ load_global "datetime" ;;
  v_published_at <~ dict_getitem metadata (lit "published_at") ;;
  s_published_at <~ as_str v_published_at ;;
  d_published_at <~ fromisoformat libs s_published_at ;;
  let v_quality_score := dict_get metadata (lit "quality_score") (VNum 0) in
  s_title <~ as_str v_title ;;
  s_url <~ as_str v_url ;;
  s_content_type <~ as_str v_content_type ;;
  t_content_type <~ ContentType_of_value s_content_type ;;
  s_source_name <~ as_str v_source_name ;;
  q_quality_score <~ as_float v_quality_score ;;
  ContentItem_init (utcnow libs)
    {| a_id := content_id; a_title := s_title; a_content := document;
       a_summary := None; a_url := s_url; a_content_type := t_content_type;
       a_source_id := []; a_source_name := s_source_name;
       a_authors := l_authors; a_tags := l_tags;
       a_categories := l_categories; a_published_at := d_published_at;
       a_quality_score := q_quality_score; a_quality_level := None |}.

Definition retrieve_content (content_id : pystr) : M Coll (option ContentItem) :=
  try_except
    (results <- read_call (coll_get collection content_id) ;;
     if negb (truthy (g_ids results)) then ret None
     else
       metadata <- pure_call (py_index (g_metadatas results) 0) ;;
       document <- pure_call (py_index (g_documents results) 0) ;;
       item <- pure_call (rebuild content_id metadata document) ;;
       ret (Some item))
    (fun e => raise (wrap retrieve_failed e)).

Definition search_content (query : pystr) (n_results : Z)
    (where_ : option pydict) : M Coll (list SearchResult) :=
  try_except
    (query_embedding <- pure_call (encode libs query) ;;
     results <- read_call (coll_query collection query_embedding n_results where_) ;;
     ids <- pure_call (py_index (q_ids results) 0) ;;
     search_results <- pure_call (search_loop results 0 ids []) ;;
     ret search_results)
    (fun e => raise (wrap search_failed e)).

Definition search_similar_content (content_item : ContentItem) (n_results : Z)
    (exclude_self : bool) : M Coll (list SearchResult) :=
  try_except
    (let text_to_embed := _prepare_text_for_embedding content_item in
     embedding <- pure_call (encode libs text_to_embed) ;;
     results <- read_call
       (coll_query collection embedding
          (n_results + (if exclude_self then 1 else 0))%Z None) ;;
     ids <- pure_call (py_index (q_ids results) 0) ;;
     search_results <- pure_call
       (similar_loop results exclude_self (id content_item) 0 ids []) ;;
     ret (py_slice_to n_results search_results))
    (fun e => raise (wrap similar_failed e)).

Definition delete_content (content_id : pystr) : M Coll bool :=
  try_except
    (coll_delete collection content_id ;;;
     ret true)
    (fun e => ret false).

Definition update_content (c : ContentItem) : M Coll bool :=
  try_except
    (delete_content (id c) ;;;
     store_content c ;;;
     ret true)
    (fun e => ret false).

(** [ChromaVectorStoreTool._execute]: the [data] of its result is the
    list of search results. *)
Definition _execute (query : pystr)
  : M Coll (Base.ToolResult (list SearchResult)) :=
  try_except
    (results <- search_content query 10 None ;;
     count <- read_call (coll_count collection) ;;
     ret {| Base.success := true;
            Base.data := Some results;
            Base.error := None;
            Base.metadata :=
              [ (lit "query", VStr query);
                (lit "total_results", VNum (inject_Z (Z.of_nat (List.length results))));
                (lit "collection_size", VNum (inject_Z count)) ];
            Base.execution_time := None |})
    (fun e => raise (wrap execute_failed e)).

End Tool.

End VectorStore.

(* ===================================================================== *)
(** ** Executable instances of the called libraries *)
(* ===================================================================== *)

Module Reference.

Import Models VectorStore.

(** Modelled from the spec: the Vector Index of section 4.3, which the
    repository takes from chromadb. One entry per id, kept in insertion
    order; [insert] adds or overwrites, [fetch] is an exact lookup, [query]
    ranks by ascending distance and returns at most [k] entries that match
    the filter's equality constraints, [delete] of an absent id is not an
    error. The distance is the squared Euclidean distance, chromadb's
    default for a collection created, as here, without a distance setting. *)
Record Entry : Type := mk_Entry {
  e_id : pystr;
  e_embedding : list Q;
  e_document : pystr;
  e_metadata : pydict
}.

Definition Index := list Entry.

Fixpoint l2 (a b : list Q) : Q :=
  match a, b with
  | x :: a', y :: b' => (x - y) * (x - y) + l2 a' b'
  | _, _ => 0
  end.

Definition has_id (i : pystr) (e : Entry) : bool := pystr_eqb (e_id e) i.

Definition scalar_eqb (a b : scalar) : bool :=
  match a, b with
  | VStr x, VStr y => pystr_eqb x y
  | VNum x, VNum y => Qeq_bool x y
  | _, _ => false
  end.

Definition matches (where_ : option pydict) (e : Entry) : bool :=
  match where_ with
  | None => true
  | Some constraints =>
      forallb (fun kv =>
                 match dict_lookup (e_metadata e) (fst kv) with
                 | Some v => scalar_eqb v (snd kv)
                 | None => false
                 end) constraints
  end.

Fixpoint insert_by (key : Entry -> Q) (x : Entry) (l : list Entry) : list Entry :=
  match l with
  | [] => [x]
  | y :: l' => if Qle_bool (key x) (key y) then x :: l else y :: insert_by key x l'
  end.

Definition rank (key : Entry -> Q) (l : list Entry) : list Entry :=
  fold_right (insert_by key) [] l.

Definition insert (i : pystr) (v : list Q) (text : pystr) (md : pydict)
  : M Index unit :=
  fun s => (Ok tt, filter (fun e => negb (has_id i e)) s ++ [mk_Entry i v text md]).

Definition fetch (i : pystr) (s : Index) : result GetResult :=
  let found := filter (has_id i) s in
  Ok {| g_ids := map e_id found;
        g_documents := map e_document found;
        g_metadatas := map e_metadata found |}.

Definition query (v : list Q) (k : Z) (where_ : option pydict) (s : Index)
  : result QueryResult :=
  if (k <=? 0)%Z
  then Raise (mk_exn ValueError (lit "number of requested results must be positive"))
  else
    let key := fun e => l2 v (e_embedding e) in
    let ranked := firstn (Z.to_nat k) (rank key (filter (matches where_) s)) in
    Ok {| q_ids := [map e_id ranked];
          q_documents := [map e_document ranked];
          q_metadatas := [map e_metadata ranked];
          q_distances := [map key ranked] |}.

Definition delete (i : pystr) : M Index unit :=
  fun s => (Ok tt, filter (fun e => negb (has_id i e)) s).

Definition count (s : Index) : Z := Z.of_nat (List.length s).

(** The reference index as a [Collection]. *)
Definition index : Collection Index :=
  {| coll_add := insert;
     coll_get := fetch;
     coll_query := query;
     coll_delete := delete;
     coll_count := fun s => Ok (count s) |}.

(** An embedding provider for the examples: it raises on the empty text,
    and otherwise returns a unit vector of dimension one, [[1]] for a text
    of odd length and [[-1]] for one of even length. *)
Definition toy_encode (text : pystr) : result (list Q) :=
  match text with
  | [] => Raise (mk_exn CollaboratorError (lit "cannot embed empty text"))
  | _ => Ok [if Nat.odd (List.length text) then 1 else -1]
  end.

(** A stand-in for [json] on lists of strings: [["a", "b"]] with the
    quote and the backslash escaped by a backslash. *)
Fixpoint json_escape (s : pystr) : pystr :=
  match s with
  | [] => []
  | ch :: s' =>
      if (ch =? 34)%N || (ch =? 92)%N then 92%N :: ch :: json_escape s'
      else ch :: json_escape s'
  end.

Definition toy_dumps (l : list pystr) : pystr :=
  [91%N]
  ++ py_join (lit ", ") (map (fun s => [34%N] ++ json_escape s ++ [34%N]) l)
  ++ [93%N].

Inductive scan_state : Type :=
  | AtStart | AfterOpen | InString (cur : pystr) | AfterBackslash (cur : pystr)
  | AfterString | AfterComma | AtEnd.

Definition decode_error : exn :=
  mk_exn ValueError (lit "Expecting value").

Fixpoint toy_scan (st : scan_state) (acc : list pystr) (s : pystr)
  : result (list pystr) :=
  match s with
  | [] => match st with AtEnd => Ok acc | _ => Raise decode_error end
  | ch :: s' =>
      match st with
      | AtStart =>
          if (ch =? 91)%N then toy_scan AfterOpen acc s' else Raise decode_error
      | AfterOpen =>
          if (ch =? 93)%N then toy_scan AtEnd acc s'
          else if (ch =? 34)%N then toy_scan (InString []) acc s'
          else Raise decode_error
      | InString cur =>
          if (ch =? 34)%N then toy_scan AfterString (acc ++ [cur]) s'
          else if (ch =? 92)%N then toy_scan (AfterBackslash cur) acc s'
          else toy_scan (InString (cur ++ [ch])) acc s'
      | AfterBackslash cur => toy_scan (InString (cur ++ [ch])) acc s'
      | AfterString =>
          if (ch =? 93)%N then toy_scan AtEnd acc s'
          else if (ch =? 44)%N then toy_scan AfterComma acc s'
          else Raise decode_error
      | AfterComma =>
          if (ch =? 32)%N then toy_scan AfterComma acc s'
          else if (ch =? 34)%N then toy_scan (InString []) acc s'
          else Raise decode_error
      | AtEnd => Raise decode_error
      end
  end.

Definition toy_loads (s : pystr) : result (list pystr) := toy_scan AtStart [] s.

(** A stand-in for [datetime]: a timestamp is written as the decimal
    digits of its absolute value and read back from them. *)
Fixpoint digits (fuel : nat) (n : N) (acc : pystr) : pystr :=
  match fuel with
  | O => acc
  | S fuel' =>
      let acc' := (48 + n mod 10)%N :: acc in
      if (n <? 10)%N then acc' else digits fuel' (n / 10)%N acc'
  end.

Definition toy_isoformat (t : datetime) : pystr :=
  digits 64 (Z.to_N (Z.abs t)) [].

Definition toy_fromisoformat (s : pystr) : result datetime :=
  if forallb (fun ch => (48 <=? ch)%N && (ch <=? 57)%N) s && truthy s
  then Ok (Z.of_N (fold_left (fun n ch => (10 * n + (ch - 48))%N) s 0%N))
  else Raise (mk_exn ValueError (lit "Invalid isoformat string")).

Definition toy_libs : Libraries :=
  {| encode := toy_encode;
     json_dumps := toy_dumps;
     json_loads := toy_loads;
     isoformat := toy_isoformat;
     fromisoformat := toy_fromisoformat;
     utcnow := 0%Z |}.

(** Constructor arguments with the given quality score and level. *)
Definition args_with (score : Q) (level : option QualityLevel) : ContentItem_args :=
  {| a_id := lit "a"; a_title := lit "t"; a_content := lit "body";
     a_summary := None; a_url := lit "u"; a_content_type := NEWS_ARTICLE;
     a_source_id := lit "s"; a_source_name := lit "n";
     a_authors := []; a_tags := []; a_categories := [];
     a_published_at := 0%Z;
     a_quality_score := score; a_quality_level := level |}.

(** A record with the given id, title and body and nothing else. *)
Definition item (i t body : string) : ContentItem :=
  {| id := lit i; title := lit t; content := lit body; summary := None;
     url := lit "http://example.org"; content_type := BLOG_POST;
     source_id := lit "s"; source_name := lit "example";
     authors := []; tags := []; categories := []; language := lit "en";
     published_at := 0%Z; collected_at := 0%Z; processed_at := None;
     quality_score := 1 # 2; quality_level := Some LOW;
     relevance_score := 0; importance_score := 0;
     processing_status := PENDING; error_message := None;
     Models.metadata := [] |}.

(** Records and indexes for the examples: [rec_a] embeds to [[1]],
    [rec_b] to [[-1]]; [rec_a_new] has the id of [rec_a] and a new title and
    body; [rec_empty] projects to the empty text. *)
Definition rec_a : ContentItem := item "a" "x" EmptyString.
Definition rec_b : ContentItem := item "b" "xy" EmptyString.
Definition rec_a_new : ContentItem := item "a" "new" "fresh body".
Definition rec_empty : ContentItem := item "e" EmptyString EmptyString.

(** A record with a summary, two authors and a tag. *)
Definition rec_full : ContentItem :=
  {| id := lit "f"; title := lit "T"; content := lit "body";
     summary := Some (lit "S");
     url := lit "http://example.org"; content_type := ACADEMIC_PAPER;
     source_id := lit "s"; source_name := lit "example";
     authors := [lit "Ann"; lit "Bob"]; tags := [lit "ai"];
     categories := []; language := lit "en";
     published_at := 0%Z; collected_at := 0%Z; processed_at := None;
     quality_score := 9 # 10; quality_level := Some HIGH;
     relevance_score := 0; importance_score := 0;
     processing_status := PENDING; error_message := None;
     Models.metadata := [] |}.

Definition index_a : Index := snd (store_content index toy_libs rec_a []).
Definition index_ab : Index := snd (store_content index toy_libs rec_b index_a).

End Reference.

(* ===================================================================== *)
(** ** The specification's own definitions *)
(* ===================================================================== *)

Module Spec.

Import Models VectorStore.

(** Section 3: the quality level as a function of the quality score:
    at least 0.8 is high, at least 0.6 medium, at least 0.3 low, anything
    else very low. *)
Definition bucket (score : Q) : QualityLevel :=
  if Qle_bool (8 # 10) score then HIGH
  else if Qle_bool (6 # 10) score then MEDIUM
  else if Qle_bool (3 # 10) score then LOW
  else VERY_LOW.

(** Section 4.1: a field's line, or no line when the field is empty. *)
Definition line_if_nonempty {A} (field : list A) (line : pystr) : list pystr :=
  match field with
  | [] => []
  | _ :: _ => [line]
  end.

(** Section 4.1: the parts of the projected text, in their fixed order. *)
Definition project_parts (c : ContentItem) : list pystr :=
  [title c]
  ++ match summary c with
     | Some s => line_if_nonempty s s
     | None => []
     end
  ++ line_if_nonempty (content c) (firstn 1000 (content c))
  ++ line_if_nonempty (authors c)
       (authors_prefix ++ py_join (lit ", ") (authors c))
  ++ line_if_nonempty (tags c)
       (tags_prefix ++ py_join (lit ", ") (tags c)).

(** Section 4.1: [project(record)], the parts joined with newlines. *)
Definition project (c : ContentItem) : pystr :=
  py_join [10%N] (project_parts c).

(** Closest first. *)
Definition ascending (l : list Q) : Prop := StronglySorted Qle l.

(** Highest first. *)
Definition non_increasing (l : list Q) : Prop :=
  StronglySorted (fun a b => b <= a) l.

Definition in_unit_interval (x : Q) : Prop := 0 <= x /\ x <= 1.

End Spec.

(* ===================================================================== *)
(** ** [vector_store.py]: [get_collection_stats] *)
(* ===================================================================== *)

Module VectorStoreStats.

Import Models VectorStore.

(** A [dict] that counts: keys are metadata values, in insertion order.
    Two keys are the same key when they are equal strings or equal
    numbers. *)
Definition counter := list (scalar * Z).

Definition same_key (a b : scalar) : bool := Reference.scalar_eqb a b.

(** [d.get(k, default)] *)
Fixpoint counter_get (d : counter) (k : scalar) (default : Z) : Z :=
  match d with
  | [] => default
  | (k', n) :: d' => if same_key k' k then n else counter_get d' k default
  end.

(** [d[k] = v]: an existing key keeps its place, a new one goes last. *)
Fixpoint counter_set (d : counter) (k : scalar) (v : Z) : counter :=
  match d with
  | [] => [(k, v)]
  | (k', n) :: d' =>
      if same_key k' k then (k', v) :: d' else (k', n) :: counter_set d' k v
  end.

Definition unknown : scalar := VStr (lit "unknown").

(** The [for metadata in ...] loop. An entry stored without metadata
    comes back as [None], and [None.get] raises; as the handler of
    [get_collection_stats] keeps only [str(e)], the loop gives that text. *)
Fixpoint tally (metadatas : list (option pydict)) (content_types sources : counter)
  : pystr + counter * counter :=
  match metadatas with
  | [] => inr (content_types, sources)
  | None :: _ => inl (lit "'NoneType' object has no attribute 'get'")
  | Some metadata :: rest =>
      let content_type := dict_get metadata (lit "content_type") unknown in
      let source_name := dict_get metadata (lit "source_name") unknown in
      let content_types :=
        counter_set content_types content_type
          (counter_get content_types content_type 0 + 1)%Z in
      let sources :=
        counter_set sources source_name
          (counter_get sources source_name 0 + 1)%Z in
      tally rest content_types sources
  end.

(** What [get_collection_stats] returns: the statistics, or a dict with
    the single key [error]. *)
Inductive StatsDict : Type :=
  | Statistics (total_documents : Z)
      (content_type_distribution source_distribution : counter)
      (embedding_dimension : Z)
  | StatsError (error : pystr).

Section Stats.

Variable Coll : Type.
Variable collection : Collection Coll.

(** [collection.get(limit=n, include=["metadatas"])["metadatas"]] *)
Variable coll_sample : Z -> Coll -> result (list (option pydict)).

(** [config.vector_store.vector_dimension] *)
Variable vector_dimension : Z.

Definition get_collection_stats : M Coll StatsDict :=
  try_except
    (count <- read_call (coll_count collection) ;;
     sample <- read_call (coll_sample (Z.min 100 count)) ;;
     match tally sample [] [] with
     | inr (content_types, sources) =>
         ret (Statistics count content_types sources vector_dimension)
     | inl text => ret (StatsError text)
     end)
    (fun e => ret (StatsError (exn_str e))).

End Stats.

(** The number of sampled entries whose value under [field] (or
    ["unknown"]) is the key [k]. *)
Fixpoint occurrences (field : pystr) (k : scalar) (sample : list pydict) : Z :=
  match sample with
  | [] => 0
  | metadata :: rest =>
      ((if same_key (dict_get metadata field unknown) k then 1 else 0)
       + occurrences field k rest)%Z
  end.

Definition total (d : counter) : Z :=
  fold_right (fun kv acc => (snd kv + acc)%Z) 0%Z d.

(** No two entries of a counter have the same key. *)
Fixpoint distinct_keys (d : counter) : Prop :=
  match d with
  | [] => True
  | (k, _) :: d' =>
      Forall (fun kv => same_key k (fst kv) = false) d' /\ distinct_keys d'
  end.

End VectorStoreStats.

(* ===================================================================== *)
(** ** [src/core/config.py]: the log-level validator *)
(* ===================================================================== *)

Module Config.

Definition valid_levels : list pystr :=
  [lit "DEBUG"; lit "INFO"; lit "WARNING"; lit "ERROR"; lit "CRITICAL"].

Definition invalid_level : exn :=
  mk_exn ValueError
    (lit "log_level must be one of ['DEBUG', 'INFO', 'WARNING', 'ERROR', 'CRITICAL']").

Section Validator.

(** [str.upper] *)
Variable upper : pystr -> pystr.

(** [AppConfig.validate_log_level] *)
Definition validate_log_level (v : pystr) : result pystr :=
  if negb (existsb (pystr_eqb (upper v)) valid_levels)
  then Raise invalid_level
  else Ok (upper v).

End Validator.

(** A stand-in for [str.upper]: the letters [a] to [z] are raised, every
    other code point is kept. *)
Definition ascii_upper (s : pystr) : pystr :=
  map (fun ch => if (97 <=? ch)%N && (ch <=? 122)%N then (ch - 32)%N else ch) s.

End Config.

(* ===================================================================== *)
(** ** [src/tools/data_sources/arxiv_tool.py]: fetching *)
(* ===================================================================== *)

Module Arxiv.

Import Models VectorStore.

Inductive SortCriterion : Type := Relevance | LastUpdatedDate | SubmittedDate.
Inductive SortOrder : Type := Ascending | Descending.

(** [arxiv.Search(query=..., max_results=..., sort_by=..., sort_order=...)] *)
Record Search : Type := mk_Search {
  query : pystr;
  max_results : Z;
  sort_by : SortCriterion;
  sort_order : SortOrder
}.

(** [self.ai_categories] *)
Definition ai_categories : list pystr :=
  [lit "cs.AI"; lit "cs.LG"; lit "cs.CL"; lit "cs.CV"; lit "cs.NE"; lit "stat.ML"].

(** ["ArXiv API错误: "] *)
Definition api_error : pystr :=
  [65; 114; 88; 105; 118; 32; 65; 80; 73; 38169; 35823; 58; 32]%N.
(** ["ArXiv关键词搜索错误: "] *)
Definition keyword_error : pystr :=
  [65; 114; 88; 105; 118; 20851; 38190; 35789; 25628; 32034; 38169; 35823; 58; 32]%N.

(** A [datetime] value as Python compares it: the instant it denotes and
    whether it carries a timezone ([tzinfo] set) or is naive. *)
Record stamp : Type := mk_stamp {
  instant : datetime;
  aware : bool
}.

Definition naive (t : datetime) : stamp := {| instant := t; aware := false |}.

(** The [TypeError] of [datetime.__lt__] on a naive and an aware value. *)
Definition naive_vs_aware : exn :=
  mk_exn TypeError (lit "can't compare offset-naive and offset-aware datetimes").

(** [a < b] on two [datetime] values. *)
Definition datetime_lt (a b : stamp) : result bool :=
  if Bool.eqb (aware a) (aware b) then Ok (instant a <? instant b)%Z
  else Raise naive_vs_aware.

(** What leaves a method of the tool when it does not return: an
    exception that no handler of the method caught, or the
    [DataSourceException] the method raises with the given message. *)
Inductive raised : Type :=
  | Uncaught (e : exn)
  | DataSourceException (message : pystr).

Definition outcome (A : Type) : Type := (A + raised)%type.

Section Tool.

(** [arxiv.Result] *)
Variable Paper : Type.

(** [datetime.now()]: called without a timezone, it returns a naive value;
    [now] is the instant it reads. *)
Variable now : datetime.

(** [end_date - timedelta(days=days_back)] on a naive value, which gives a
    naive value or raises. *)
Variable minus_days : datetime -> Z -> result datetime.

(** [self.client.results(search)]: what each step of the iteration gives,
    a paper or an exception; nothing is read past an exception. *)
Variable results : Search -> list (result Paper).

(** [paper.published] *)
Variable published : Paper -> stamp.

(** [self._convert_to_content_item(paper)] *)
Variable _convert_to_content_item : Paper -> result ContentItem.

(** [categories or self.ai_categories] *)
Definition categories_or_default (categories : option (list pystr)) : list pystr :=
  match categories with
  | Some (c :: rest) => c :: rest
  | Some [] | None => ai_categories
  end.

(** The search [fetch_content] issues. *)
Definition fetch_search (max_results : Z) (categories : option (list pystr))
  : Search :=
  {| query :=
       py_join (lit " OR ")
         (map (fun cat => lit "cat:" ++ cat) (categories_or_default categories));
     max_results := max_results;
     sort_by := SubmittedDate;
     sort_order := Descending |}.

(** The [for paper in ...] loop of [fetch_content]. *)
Fixpoint fetch_loop (start_date : stamp) (stream : list (result Paper))
    (content_items : list ContentItem) : result (list ContentItem) :=
  match stream with
  | [] => Ok content_items
  | Raise e :: _ => Raise e
  | Ok paper :: rest =>
      older <~ datetime_lt (published paper) start_date ;;
      if (older : bool) then fetch_loop start_date rest content_items
      else
        content_item <~ _convert_to_content_item paper ;;
        fetch_loop start_date rest (content_items ++ [content_item])
  end.

Definition fetch_content (max_results days_back : Z)
    (categories : option (list pystr)) : outcome (list ContentItem) :=
  let categories := categories_or_default categories in
  let category_query :=
    py_join (lit " OR ") (map (fun cat => lit "cat:" ++ cat) categories) in
  let end_date := now in
  match minus_days end_date days_back with
  | Raise e => inr (Uncaught e)
  | Ok start =>
      let start_date := naive start in
      let search :=
        {| query := category_query; max_results := max_results;
           sort_by := SubmittedDate; sort_order := Descending |} in
      match fetch_loop start_date (results search) [] with
      | Ok content_items => inl content_items
      | Raise e => inr (DataSourceException (api_error ++ exn_str e))
      end
  end.

(** [get_recent_papers]; [hours // 24] rounds down. *)
Definition get_recent_papers (hours : Z) : outcome (list ContentItem) :=
  fetch_content 100 (Z.max 1 (hours / 24)) None.

(** The loop of [search_papers_by_keyword]. *)
Fixpoint keyword_loop (stream : list (result Paper))
    (content_items : list ContentItem) : result (list ContentItem) :=
  match stream with
  | [] => Ok content_items
  | Raise e :: _ => Raise e
  | Ok paper :: rest =>
      content_item <~ _convert_to_content_item paper ;;
      keyword_loop rest (content_items ++ [content_item])
  end.

(** [search_papers_by_keyword]; the search leaves [sort_order] at the
    library's default. *)
Definition search_papers_by_keyword (keywords : list pystr) (max_results : Z)
  : outcome (list ContentItem) :=
  let keyword_query :=
    py_join (lit " AND ")
      (map (fun keyword => [34%N] ++ keyword ++ [34%N]) keywords) in
  let search :=
    {| query := keyword_query; max_results := max_results;
       sort_by := Relevance; sort_order := Descending |} in
  match keyword_loop (results search) [] with
  | Ok content_items => inl content_items
  | Raise e => inr (DataSourceException (keyword_error ++ exn_str e))
  end.

End Tool.

End Arxiv.

(* ===================================================================== *)
(** ** Further definitions for the statements below *)
(* ===================================================================== *)

Module Aux.

Import Models VectorStore.

(** The first row of a query result's documents and metadatas. *)
Definition documents0 (results : QueryResult) : list pystr :=
  match q_documents results with docs :: _ => docs | [] => [] end.

Definition metadatas0 (results : QueryResult) : list pydict :=
  match q_metadatas results with mds :: _ => mds | [] => [] end.

(** The [_execute] of a tool, with no store, that is interrupted from
    the keyboard. *)
Definition interrupted_execute (query : pystr)
  : Base.Tool unit (Base.ToolResult unit) :=
  fun s => (Base.Escaped Base.KeyboardInterrupt, s).

(** The reference index behind a [count] that raises. *)
Definition index_without_count : Collection Reference.Index :=
  {| coll_add := Reference.insert;
     coll_get := Reference.fetch;
     coll_query := Reference.query;
     coll_delete := Reference.delete;
     coll_count :=
       fun _ => Raise (mk_exn CollaboratorError (lit "database is locked")) |}.

(** The quality levels in increasing order. *)
Definition level_rank (l : QualityLevel) : nat :=
  match l with
  | VERY_LOW => 0
  | LOW => 1
  | MEDIUM => 2
  | HIGH => 3
  end.

(** A record whose id is in [Reference.index_ab] and whose projected text
    is empty. *)
Definition rec_a_blank : ContentItem :=
  Reference.item "a" EmptyString EmptyString.

(** Two records that agree except in the body, and there only after the
    first 1000 characters. *)
Definition long_body (last : N) : pystr := repeat 120%N 1000 ++ [last].

Definition rec_long (last : N) : ContentItem :=
  {| id := lit "l"; title := lit "T"; content := long_body last;
     summary := None;
     url := lit "http://example.org"; content_type := BLOG_POST;
     source_id := lit "s"; source_name := lit "example";
     authors := []; tags := []; categories := []; language := lit "en";
     published_at := 0%Z; collected_at := 0%Z; processed_at := None;
     quality_score := 1 # 2; quality_level := Some LOW;
     relevance_score := 0; importance_score := 0;
     processing_status := PENDING; error_message := None;
     Models.metadata := [] |}.

(** A sample for the statistics: two papers of one source, one post of
    another, and an entry with neither field. *)
Definition sample_metadatas : list (option pydict) :=
  [ Some [(lit "content_type", VStr (lit "academic_paper"));
          (lit "source_name", VStr (lit "arxiv"))];
    Some [(lit "content_type", VStr (lit "blog_post"));
          (lit "source_name", VStr (lit "blog"))];
    Some [(lit "content_type", VStr (lit "academic_paper"));
          (lit "source_name", VStr (lit "arxiv"))];
    Some [] ].

(** A sampling that returns the first [n] metadata snapshots of the
    reference index. *)
Definition reference_sample (n : Z) (s : Reference.Index)
  : result (list (option pydict)) :=
  Ok (map (fun e => Some (Reference.e_metadata e)) (firstn (Z.to_nat n) s)).

(** A client that answers every search with the same three papers, each
    named by the instant of its publication, and one that finds none. *)
Definition day : Z := 86400000000.

Definition paper_stream (search : Arxiv.Search) : list (result Z) :=
  [Ok (10 * day)%Z; Ok (3 * day)%Z; Ok (9 * day + 1)%Z].

Definition no_papers (search : Arxiv.Search) : list (result Z) := [].

Definition toy_minus_days (t : datetime) (days : Z) : result datetime :=
  Ok (t - days * day)%Z.

(** [paper.published] as the arXiv client sets it: the instant, in UTC. *)
Definition toy_published (published : Z) : Arxiv.stamp :=
  {| Arxiv.instant := published; Arxiv.aware := true |}.

Definition paper_item (published : Z) : result ContentItem :=
  Ok {| id := lit "p"; title := lit "paper"; content := lit "text";
        summary := None; url := lit "http://arxiv.org";
        content_type := ACADEMIC_PAPER;
        source_id := lit "s"; source_name := lit "arxiv";
        authors := []; tags := []; categories := []; language := lit "en";
        published_at := published; collected_at := 0%Z; processed_at := None;
        quality_score := 0; quality_level := Some VERY_LOW;
        relevance_score := 0; importance_score := 0;
        processing_status := PENDING; error_message := None;
        Models.metadata := [] |}.

End Aux.

(* ===================================================================== *)
(** * Properties *)
(* ===================================================================== *)

(** ** Strings and lists *)

Lemma pystr_eqb_eq (a b : pystr) : pystr_eqb a b = true <-> a = b.
Proof.
  revert b; induction a as [|x a IH]; intros [|y b]; simpl;
    try (split; [discriminate | congruence]); try tauto.
  rewrite andb_true_iff, N.eqb_eq, IH. split.
  - intros [-> ->]; reflexivity.
  - intros H; injection H; auto.
Qed.

Lemma pystr_eqb_refl (a : pystr) : pystr_eqb a a = true.
Proof. apply pystr_eqb_eq; reflexivity. Qed.

Lemma py_slice_to_nonneg {A} (n : Z) (l : list A) :
  (0 <= n)%Z -> py_slice_to n l = firstn (Z.to_nat n) l.
Proof.
  intros H. unfold py_slice_to.
  destruct (Z.leb_spec 0 n); [reflexivity | lia].
Qed.

Lemma skipn_nth_error_cons {A} (l : list A) (i : nat) (x : A) :
  nth_error l i = Some x -> skipn i l = x :: skipn (S i) l.
Proof.
  revert i; induction l as [|y l IH]; intros [|i]; simpl; try discriminate.
  - intros H; injection H as ->; reflexivity.
  - intros H. rewrite (IH _ H). reflexivity.
Qed.

Lemma in_firstn {A} (n : nat) (l : list A) (x : A) :
  In x (firstn n l) -> In x l.
Proof.
  revert n; induction l as [|y l IH]; intros [|n]; simpl; try tauto.
  intros [H|H]; [left; exact H | right; exact (IH _ H)].
Qed.

Lemma in_py_slice_to {A} (n : Z) (l : list A) (x : A) :
  In x (py_slice_to n l) -> In x l.
Proof.
  unfold py_slice_to. destruct (0 <=? n)%Z; apply in_firstn.
Qed.

(** ** Order *)

Section Order.

Variable R : Q -> Q -> Prop.

Lemma strongly_sorted_firstn (n : nat) (l : list Q) :
  StronglySorted R l -> StronglySorted R (firstn n l).
Proof.
  intros H; revert n; induction H as [|x l Hs IH Hall]; intros [|n]; simpl;
    try constructor; auto.
  rewrite Forall_forall in *. intros y Hy. apply Hall.
  eapply in_firstn; eassumption.
Qed.

End Order.

(** Turning each distance into [1 - distance] turns closest-first into
    highest-first. *)
Lemma similarity_reverses_order (ds : list Q) :
  Spec.ascending ds -> Spec.non_increasing (map (fun d => 1 - d) ds).
Proof.
  unfold Spec.ascending, Spec.non_increasing.
  induction 1 as [|d ds Hs IH Hall]; simpl; constructor; auto.
  rewrite Forall_map. rewrite Forall_forall in *.
  intros d' Hd'. specialize (Hall d' Hd'). lra.
Qed.

(* ===================================================================== *)
(** ** The quality level ([models.py]) *)
(* ===================================================================== *)

Module ModelsFacts.

Import Models.

Lemma set_quality_level_bucket (score : Q) :
  set_quality_level None (Some score) = Some (Spec.bucket score).
Proof.
  unfold set_quality_level, Spec.bucket, ge_float.
  destruct (Qle_bool (8 # 10) score); [reflexivity|].
  destruct (Qle_bool (6 # 10) score); [reflexivity|].
  destruct (Qle_bool (3 # 10) score); reflexivity.
Qed.

(** The thresholds of [Spec.bucket], as inequalities. *)
Lemma bucket_thresholds (score : Q) :
  (8 # 10 <= score -> Spec.bucket score = HIGH)
  /\ (6 # 10 <= score -> score < 8 # 10 -> Spec.bucket score = MEDIUM)
  /\ (3 # 10 <= score -> score < 6 # 10 -> Spec.bucket score = LOW)
  /\ (score < 3 # 10 -> Spec.bucket score = VERY_LOW).
Proof.
  unfold Spec.bucket.
  destruct (Qle_bool (8 # 10) score) eqn:E8;
    destruct (Qle_bool (6 # 10) score) eqn:E6;
    destruct (Qle_bool (3 # 10) score) eqn:E3;
    repeat match goal with
      | H : Qle_bool _ _ = true |- _ => apply Qle_bool_iff in H
      | H : Qle_bool _ _ = false |- _ =>
          assert (~ _) by (intros Hc; apply Qle_bool_iff in Hc;
                           rewrite Hc in H; discriminate H);
          clear H
      end;
    repeat split; intros; try reflexivity; exfalso; lra.
Qed.

Lemma ContentItem_init_inv (now : datetime) (a : ContentItem_args) (it : ContentItem) :
  ContentItem_init now a = Ok it ->
  validate_unit_interval (a_quality_score a) = Some (quality_score it)
  /\ quality_level it =
       set_quality_level (a_quality_level a) (Some (quality_score it))
  /\ id it = a_id a.
Proof.
  unfold ContentItem_init.
  destruct (validate_unit_interval (a_quality_score a)) as [score|];
    [|discriminate].
  intros H; injection H as <-; simpl. auto.
Qed.

(** C8, as the code has it: a record constructed with no explicit quality
    level gets the bucket of its quality score (at least 0.8 high, at least
    0.6 medium, at least 0.3 low, otherwise very low); an explicit level is
    kept as given; and assigning the quality score afterwards changes the
    score only, the level stays what it was. *)
Theorem quality_level_set_at_construction
    (now : datetime) (a : ContentItem_args) (it : ContentItem) :
  ContentItem_init now a = Ok it ->
  (a_quality_level a = None ->
     quality_level it = Some (Spec.bucket (quality_score it)))
  /\ (forall v, a_quality_level a = Some v -> quality_level it = Some v)
  /\ (forall score,
        quality_score (setattr_quality_score it score) = score
        /\ quality_level (setattr_quality_score it score) = quality_level it).
Proof.
  intros H. apply ContentItem_init_inv in H. destruct H as (_ & Hl & _).
  repeat split.
  - intros Hn. rewrite Hl, Hn. apply set_quality_level_bucket.
  - intros v Hv. rewrite Hl, Hv. reflexivity.
Qed.

Lemma quality_level_set_at_construction_witness :
  exists it,
    ContentItem_init 0%Z (Reference.args_with (9 # 10) None) = Ok it
    /\ quality_level it = Some HIGH.
Proof.
  eexists. split; [reflexivity|].
  exact (proj1 (quality_level_set_at_construction 0%Z (Reference.args_with (9 # 10) None)
                  eq_refl) eq_refl).
Defined.

(** C8 as stated fails after an assignment: a record constructed with
    score 0.9 and no explicit level is high; once its score is set to 0.1
    its level is still high, while the bucket of 0.1 is very low. *)
Lemma quality_level_stale_after_assignment :
  exists it,
    ContentItem_init 0%Z (Reference.args_with (9 # 10) None) = Ok it
    /\ quality_score (setattr_quality_score it (1 # 10)) = 1 # 10
    /\ quality_level (setattr_quality_score it (1 # 10)) = Some HIGH
    /\ Spec.bucket (quality_score (setattr_quality_score it (1 # 10))) = VERY_LOW.
Proof.
  eexists. split; [reflexivity|]. repeat split.
Qed.

End ModelsFacts.

(* ===================================================================== *)
(** ** The tool wrapper ([base.py]) *)
(* ===================================================================== *)

Module BaseFacts.

Import Base.

(** C10, as the code has it: [_run] catches what derives from
    [Exception] and nothing else. When [_execute] returns, [_run] returns
    the same result; when [_execute] raises an instance [e] of
    [Exception], [_run] returns a result with [success = False] and
    [error = str(e)], so no such exception leaves [_run]; an exception
    that derives from [BaseException] only leaves [_run] as it left
    [_execute]. The store is left as [_execute] left it. *)
Theorem run_catches_exceptions_only
    (St D : Type) (name : pystr) (execute : pystr -> Tool St (ToolResult D))
    (query : pystr) (s : St) :
  _run name execute query s =
    match execute query s with
    | (Ended (Ok r), s') => (Ended (Ok r), s')
    | (Ended (Raise e), s') => (Ended (Ok (failure_result D name e query)), s')
    | (Escaped b, s') => (Escaped b, s')
    end
  /\ (forall e s', _run name execute query s <> (Ended (Raise e), s'))
  /\ (forall e,
        success (failure_result D name e query) = false
        /\ error (failure_result D name e query) = Some (exn_str e)).
Proof.
  assert (E : _run name execute query s =
              match execute query s with
              | (Ended (Ok r), s') => (Ended (Ok r), s')
              | (Ended (Raise e), s') =>
                  (Ended (Ok (failure_result D name e query)), s')
              | (Escaped b, s') => (Escaped b, s')
              end).
  { unfold _run, try_except_Exception, returns.
    destruct (execute query s) as [[[r|e]|b] s']; reflexivity. }
  split; [exact E|]. split.
  - intros e s'. rewrite E.
    destruct (execute query s) as [[[r|e0]|b] s0]; discriminate.
  - intros e. split; reflexivity.
Qed.

(** C10 as stated fails: a tool whose [_execute] is interrupted from the
    keyboard does not get a [ToolResult] from [_run]; the
    [KeyboardInterrupt] leaves [_run]. *)
Lemma run_propagates_keyboard_interrupt :
  _run (lit "tool") Aux.interrupted_execute (lit "q") tt
  = (Escaped KeyboardInterrupt, tt).
Proof. reflexivity. Qed.

End BaseFacts.

(* ===================================================================== *)
(** ** The semantic content index ([vector_store.py]) *)
(* ===================================================================== *)

Module VectorStoreFacts.

Import Models VectorStore.

(** *** The text projector *)

(** C9: the text to embed is the title, then the summary if there is a
    non-empty one, then the first 1000 characters of the body if the body
    is non-empty, then the authors line if there are authors, then the tags
    line if there are tags, joined with newlines; an empty or absent
    optional field gives no line. *)
Theorem prepare_text_is_projection (c : ContentItem) :
  _prepare_text_for_embedding c = Spec.project c.
Proof.
  unfold _prepare_text_for_embedding, Spec.project, Spec.project_parts,
    summary_text, append_if, truthy, Spec.line_if_nonempty.
  destruct (summary c) as [[|x s]|];
    destruct (content c) as [|y b];
    destruct (authors c) as [|u us];
    destruct (tags c) as [|t ts];
    cbn [app]; rewrite <- ?app_assoc; reflexivity.
Qed.

(** The projector on a record with a body, no summary, authors or tags. *)
Example prepare_text_example :
  _prepare_text_for_embedding (Reference.item "a" "T" "body")
  = lit "T" ++ [10%N] ++ lit "body".
Proof. reflexivity. Qed.

(** With every field present, the parts come in the fixed order. *)
Example prepare_text_full :
  _prepare_text_for_embedding Reference.rec_full
  = py_join [10%N]
      [ lit "T"; lit "S"; lit "body";
        authors_prefix ++ lit "Ann, Bob";
        tags_prefix ++ lit "ai" ].
Proof. reflexivity. Qed.

(** A record with an empty title and nothing else projects to nothing. *)
Example prepare_text_empty :
  _prepare_text_for_embedding Reference.rec_empty = [].
Proof. reflexivity. Qed.

(** *** The result loops *)

Lemma result_at_inv (results : QueryResult) (i : nat) (doc_id : pystr)
    (r : SearchResult) :
  result_at results i doc_id = Ok r ->
  sr_id r = doc_id
  /\ exists d, nth_error (distances0 results) i = Some d
               /\ sr_similarity_score r = 1 - d.
Proof.
  unfold result_at, and_then, py_index, distances0.
  destruct (nth_error (q_documents results) 0) as [docs|]; [|discriminate].
  destruct (nth_error docs i) as [doc|]; [|discriminate].
  destruct (nth_error (q_metadatas results) 0) as [mds|]; [|discriminate].
  destruct (nth_error mds i) as [md|]; [|discriminate].
  destruct (q_distances results) as [|ds rest]; [discriminate|]. simpl.
  destruct (nth_error ds i) as [d|]; [|discriminate].
  intros H; injection H as <-; simpl. eauto.
Qed.

(** The loop of [search_content] appends one result per id, in order,
    with the score [1 - distance] of the same position. *)
Lemma search_loop_inv (results : QueryResult) (ids : list pystr) :
  forall (i : nat) (acc rs : list SearchResult),
    search_loop results i ids acc = Ok rs ->
    exists new,
      rs = acc ++ new
      /\ map sr_id new = ids
      /\ map sr_similarity_score new =
           map (fun d => 1 - d)
             (firstn (List.length ids) (skipn i (distances0 results))).
Proof.
  induction ids as [|doc_id rest IH]; intros i acc rs; simpl.
  - intros H; injection H as <-. exists []. rewrite app_nil_r. auto.
  - unfold and_then at 1.
    destruct (result_at results i doc_id) as [r|e] eqn:Er; [|discriminate].
    intros H. apply IH in H. destruct H as (new & -> & Hids & Hscores).
    apply result_at_inv in Er. destruct Er as (Hid & d & Hd & Hs).
    exists (r :: new). rewrite <- app_assoc. simpl.
    rewrite (skipn_nth_error_cons _ _ Hd). simpl.
    rewrite Hid, Hids, Hs, Hscores. auto.
Qed.

(** The loop of [search_similar_content] appends one result per id that is
    not skipped, in order, each with a score [1 - distance] for a distance
    of the query result. *)
Lemma similar_loop_inv (results : QueryResult) (exclude_self : bool)
    (self_id : pystr) (ids : list pystr) :
  forall (i : nat) (acc rs : list SearchResult),
    similar_loop results exclude_self self_id i ids acc = Ok rs ->
    exists new,
      rs = acc ++ new
      /\ map sr_id new =
           filter (fun d => negb (exclude_self && pystr_eqb d self_id)) ids
      /\ Forall (fun r => exists d, In d (distances0 results)
                                    /\ sr_similarity_score r = 1 - d) new.
Proof.
  induction ids as [|doc_id rest IH]; intros i acc rs; simpl.
  - intros H; injection H as <-. exists []. rewrite app_nil_r. auto.
  - destruct (exclude_self && pystr_eqb doc_id self_id); simpl.
    + apply IH.
    + unfold and_then at 1.
      destruct (result_at results i doc_id) as [r|e] eqn:Er; [|discriminate].
      intros H. apply IH in H. destruct H as (new & -> & Hids & Hall).
      apply result_at_inv in Er. destruct Er as (Hid & d & Hd & Hs).
      exists (r :: new). rewrite <- app_assoc. simpl.
      rewrite Hid, Hids. repeat split; auto.
      constructor; auto. exists d. split; auto.
      eapply nth_error_In; eassumption.
Qed.

(** On a well-formed query result the loops do not raise. *)
Lemma result_at_total (results : QueryResult) (i : nat) (doc_id : pystr) :
  well_formed results -> (i < List.length (ids0 results))%nat ->
  exists r, result_at results i doc_id = Ok r.
Proof.
  intros (ids & docs & mds & ds & Hi & Hd & Hm & Hds & L1 & L2 & L3).
  unfold ids0, result_at, and_then, py_index. rewrite Hi, Hd, Hm, Hds. simpl.
  intros Hlt.
  destruct (nth_error docs i) eqn:E1;
    [|apply nth_error_None in E1; lia].
  destruct (nth_error mds i) eqn:E2;
    [|apply nth_error_None in E2; lia].
  destruct (nth_error ds i) eqn:E3;
    [|apply nth_error_None in E3; lia].
  eauto.
Qed.

Lemma similar_loop_total (results : QueryResult) (exclude_self : bool)
    (self_id : pystr) (ids : list pystr) :
  well_formed results ->
  forall (i : nat) (acc : list SearchResult),
    (i + List.length ids <= List.length (ids0 results))%nat ->
    exists rs, similar_loop results exclude_self self_id i ids acc = Ok rs.
Proof.
  intros Hwf. induction ids as [|doc_id rest IH]; intros i acc Hlen; simpl in *.
  - eauto.
  - destruct (exclude_self && pystr_eqb doc_id self_id).
    + apply IH. lia.
    + destruct (result_at_total doc_id Hwf (i := i)) as [r Hr]; [lia|].
      rewrite Hr. simpl. apply IH. lia.
Qed.

Lemma nth_error_firstn_some {A} (n : nat) (l : list A) (i : nat) (x : A) :
  nth_error (firstn n l) i = Some x -> nth_error l i = Some x.
Proof.
  revert l i; induction n as [|n IH]; intros [|y l] [|i]; simpl;
    try discriminate; auto.
Qed.

(** The result the loop of [search_content] puts at a position carries
    the id of that position and [1 - d] for the distance [d] of that
    position. *)
Lemma search_loop_positions (results : QueryResult) (ids : list pystr) :
  forall (i : nat) (acc rs : list SearchResult),
    search_loop results i ids acc = Ok rs ->
    exists new,
      rs = acc ++ new
      /\ forall j r,
           nth_error new j = Some r ->
           exists d,
             nth_error ids j = Some (sr_id r)
             /\ nth_error (distances0 results) (i + j) = Some d
             /\ sr_similarity_score r = 1 - d.
Proof.
  induction ids as [|doc_id rest IH]; intros i acc rs; simpl.
  - intros H; injection H as <-. exists []. rewrite app_nil_r.
    split; [reflexivity|]. intros [|j] r; discriminate.
  - unfold and_then at 1.
    destruct (result_at results i doc_id) as [r0|e] eqn:Er; [|discriminate].
    intros H. apply IH in H. destruct H as (new & -> & Hpos).
    apply result_at_inv in Er. destruct Er as (Hid & d0 & Hd0 & Hs0).
    exists (r0 :: new). rewrite <- app_assoc. split; [reflexivity|].
    intros [|j] r; simpl.
    + intros H; injection H as <-. exists d0.
      rewrite Nat.add_0_r, Hid. auto.
    + intros H. destruct (Hpos _ _ H) as (d & Hi & Hd & Hs).
      exists d. replace (i + S j)%nat with (S i + j)%nat by lia. auto.
Qed.

(** A result the loop of [search_similar_content] keeps carries the id of
    some position of the query's answer and [1 - d] for the distance [d]
    of that position. *)
Lemma similar_loop_positions (results : QueryResult) (exclude_self : bool)
    (self_id : pystr) (ids : list pystr) :
  forall (i : nat) (acc rs : list SearchResult),
    (forall j x, nth_error ids j = Some x ->
                 nth_error (ids0 results) (i + j) = Some x) ->
    similar_loop results exclude_self self_id i ids acc = Ok rs ->
    exists new,
      rs = acc ++ new
      /\ Forall (fun r =>
                   exists p d,
                     nth_error (ids0 results) p = Some (sr_id r)
                     /\ nth_error (distances0 results) p = Some d
                     /\ sr_similarity_score r = 1 - d) new.
Proof.
  induction ids as [|doc_id rest IH]; intros i acc rs Hids; simpl.
  - intros H; injection H as <-. exists []. rewrite app_nil_r. auto.
  - assert (Hrest : forall j x, nth_error rest j = Some x ->
                                nth_error (ids0 results) (S i + j) = Some x).
    { intros j x Hj. replace (S i + j)%nat with (i + S j)%nat by lia.
      apply Hids. exact Hj. }
    destruct (exclude_self && pystr_eqb doc_id self_id); simpl.
    + apply IH. exact Hrest.
    + unfold and_then at 1.
      destruct (result_at results i doc_id) as [r0|e] eqn:Er; [|discriminate].
      intros H. apply (IH _ _ _ Hrest) in H. destruct H as (new & -> & Hall).
      apply result_at_inv in Er. destruct Er as (Hid & d0 & Hd0 & Hs0).
      exists (r0 :: new). rewrite <- app_assoc. split; [reflexivity|].
      constructor; [|exact Hall].
      exists i, d0. rewrite Hid. repeat split; auto.
      specialize (Hids 0%nat doc_id eq_refl). rewrite Nat.add_0_r in Hids.
      exact Hids.
Qed.

Lemma one_minus_in_unit_interval (d : Q) :
  Spec.in_unit_interval (1 - d) <-> Spec.in_unit_interval d.
Proof. unfold Spec.in_unit_interval. split; intros (H0 & H1); split; lra. Qed.

(** *** The operations *)

Lemma search_loop_total (results : QueryResult) (ids : list pystr) :
  well_formed results ->
  forall (i : nat) (acc : list SearchResult),
    (i + List.length ids <= List.length (ids0 results))%nat ->
    exists rs, search_loop results i ids acc = Ok rs.
Proof.
  intros Hwf. induction ids as [|doc_id rest IH]; intros i acc Hlen; simpl in *.
  - eauto.
  - destruct (result_at_total doc_id Hwf (i := i)) as [r Hr]; [lia|].
    rewrite Hr. simpl. apply IH. lia.
Qed.

Ltac run_monad :=
  unfold try_except, bind, pure_call, read_call, ret, raise.

Lemma py_index_ids0 (results : QueryResult) (ids : list pystr) :
  py_index (q_ids results) 0 = Ok ids -> ids0 results = ids.
Proof.
  unfold py_index, ids0. destruct (q_ids results) as [|x rest]; simpl;
    [discriminate|]. intros H; injection H as ->; reflexivity.
Qed.

Lemma load_global_datetime :
  load_global "datetime" =
  Raise (mk_exn NameError (lit "name 'datetime' is not defined")).
Proof. reflexivity. Qed.

Section ToolFacts.

Variable Coll : Type.
Variable collection : Collection Coll.
Variable libs : Libraries.

Lemma search_content_inv (query : pystr) (n : Z) (w : option pydict)
    (s s' : Coll) (rs : list SearchResult) :
  search_content collection libs query n w s = (Ok rs, s') ->
  s' = s
  /\ exists emb results,
       encode libs query = Ok emb
       /\ coll_query collection emb n w s = Ok results
       /\ search_loop results 0 (ids0 results) [] = Ok rs.
Proof.
  unfold search_content. run_monad.
  destruct (encode libs query) as [emb|e]; [|discriminate].
  destruct (coll_query collection emb n w s) as [results|e] eqn:Eq;
    [|discriminate].
  destruct (py_index (q_ids results) 0) as [ids|e] eqn:Ei; [|discriminate].
  destruct (search_loop results 0 ids []) as [rs0|e] eqn:El; [|discriminate].
  intros H; injection H as <- <-. split; [reflexivity|].
  exists emb, results. rewrite (py_index_ids0 _ Ei). auto.
Qed.

Lemma search_similar_content_inv (c : ContentItem) (n : Z) (ex : bool)
    (s s' : Coll) (rs : list SearchResult) :
  search_similar_content collection libs c n ex s = (Ok rs, s') ->
  s' = s
  /\ exists emb results all,
       encode libs (_prepare_text_for_embedding c) = Ok emb
       /\ coll_query collection emb (n + (if ex then 1 else 0))%Z None s
          = Ok results
       /\ similar_loop results ex (id c) 0 (ids0 results) [] = Ok all
       /\ rs = py_slice_to n all.
Proof.
  unfold search_similar_content. run_monad.
  destruct (encode libs (_prepare_text_for_embedding c)) as [emb|e];
    [|discriminate].
  destruct (coll_query collection emb (n + (if ex then 1 else 0))%Z None s)
    as [results|e] eqn:Eq; [|discriminate].
  destruct (py_index (q_ids results) 0) as [ids|e] eqn:Ei; [|discriminate].
  destruct (similar_loop results ex (id c) 0 ids []) as [all|e] eqn:El;
    [|discriminate].
  intros H; injection H as <- <-. split; [reflexivity|].
  exists emb, results, all. rewrite (py_index_ids0 _ Ei). auto.
Qed.

(** [search_content] and [search_similar_content] return whenever the
    embedding and the query do and the query result is well formed. *)
Lemma search_content_returns (query : pystr) (n : Z) (w : option pydict)
    (s : Coll) (emb : list Q) (results : QueryResult) :
  encode libs query = Ok emb ->
  coll_query collection emb n w s = Ok results ->
  well_formed results ->
  exists rs, search_content collection libs query n w s = (Ok rs, s).
Proof.
  intros He Hq Hwf. unfold search_content. run_monad.
  rewrite He, Hq.
  destruct (search_loop_total (ids0 results) Hwf 0 []) as [rs Hrs];
    [simpl; lia|].
  destruct Hwf as (ids & _ & _ & _ & Hi & _).
  unfold py_index. rewrite Hi. simpl.
  unfold ids0 in Hrs. rewrite Hi in Hrs. rewrite Hrs. eauto.
Qed.

Lemma search_similar_content_returns (c : ContentItem) (n : Z) (ex : bool)
    (s : Coll) (emb : list Q) (results : QueryResult) :
  encode libs (_prepare_text_for_embedding c) = Ok emb ->
  coll_query collection emb (n + (if ex then 1 else 0))%Z None s = Ok results ->
  well_formed results ->
  exists rs, search_similar_content collection libs c n ex s = (Ok rs, s).
Proof.
  intros He Hq Hwf. unfold search_similar_content. run_monad.
  rewrite He, Hq.
  destruct (similar_loop_total ex (id c) (ids0 results) Hwf 0 [])
    as [all Hall]; [simpl; lia|].
  destruct Hwf as (ids & _ & _ & _ & Hi & _).
  unfold py_index. rewrite Hi. simpl.
  unfold ids0 in Hall. rewrite Hi in Hall. rewrite Hall. eauto.
Qed.

(** C2: when the embedding provider raises on the record's projected
    text, [store_content] raises the module's typed error, a
    [VectorStoreException] that carries the provider's error text, and
    the index is left exactly as it was, so its count is unchanged. *)
Theorem store_content_atomic_on_embedding_failure
    (c : ContentItem) (e : exn) (s : Coll) :
  encode libs (_prepare_text_for_embedding c) = Raise e ->
  store_content collection libs c s
    = (Raise (mk_exn VectorStoreException (store_failed ++ exn_str e)), s)
  /\ coll_count collection (snd (store_content collection libs c s))
     = coll_count collection s.
Proof.
  intros He.
  assert (E : store_content collection libs c s
              = (Raise (mk_exn VectorStoreException (store_failed ++ exn_str e)), s)).
  { unfold store_content. run_monad. rewrite He. reflexivity. }
  rewrite E. auto.
Qed.

(** C3: for [k >= 1], what [search_similar_content] returns with
    [exclude_self] holds no entry with the record's own id and at most
    [k] entries: it asks the index for [k + 1] neighbours of the
    embedding of the record's projected text, drops those whose id is the
    record's, and keeps the first [k]. *)
Theorem search_similar_excludes_self
    (c : ContentItem) (k : Z) (s s' : Coll) (rs : list SearchResult) :
  (1 <= k)%Z ->
  search_similar_content collection libs c k true s = (Ok rs, s') ->
  (forall r, In r rs -> sr_id r <> id c)
  /\ (Z.of_nat (List.length rs) <= k)%Z
  /\ exists emb results,
       encode libs (_prepare_text_for_embedding c) = Ok emb
       /\ coll_query collection emb (k + 1)%Z None s = Ok results
       /\ map sr_id rs =
            firstn (Z.to_nat k)
              (filter (fun d => negb (pystr_eqb d (id c))) (ids0 results)).
Proof.
  intros Hk H. apply search_similar_content_inv in H.
  destruct H as (_ & emb & results & all & He & Hq & Hl & ->).
  apply similar_loop_inv in Hl. destruct Hl as (new & -> & Hids & _).
  simpl in *. rewrite py_slice_to_nonneg by lia.
  assert (Hmap : map sr_id (firstn (Z.to_nat k) new) =
                 firstn (Z.to_nat k)
                   (filter (fun d => negb (pystr_eqb d (id c))) (ids0 results))).
  { rewrite <- firstn_map, Hids. reflexivity. }
  repeat split.
  - intros r Hr Heq.
    assert (Hin : In (sr_id r) (map sr_id (firstn (Z.to_nat k) new)))
      by (apply in_map; exact Hr).
    rewrite Hmap in Hin. apply in_firstn in Hin.
    apply filter_In in Hin. destruct Hin as (_ & Hneg).
    rewrite Heq, pystr_eqb_refl in Hneg. discriminate.
  - pose proof (firstn_le_length (Z.to_nat k) new). lia.
  - exists emb, results. auto.
Qed.

Lemma delete_content_run (content_id : pystr) (s : Coll) :
  delete_content collection content_id s =
    (Ok (is_ok (fst (coll_delete collection content_id s))),
     snd (coll_delete collection content_id s)).
Proof.
  unfold delete_content. run_monad.
  destruct (coll_delete collection content_id s) as [[u|e] s']; reflexivity.
Qed.

(** C4, as the code has it: [delete_content] never raises and returns a
    boolean: [True] when the collection's [delete] call returns, whatever
    the id, and [False] when that call raises. The index is left as that
    call left it. *)
Theorem delete_content_reports_boolean (content_id : pystr) (s : Coll) :
  exists b : bool,
    delete_content collection content_id s
      = (Ok b, snd (coll_delete collection content_id s))
    /\ (b = true <->
          exists u, fst (coll_delete collection content_id s) = Ok u)
    /\ (b = false <->
          exists e, fst (coll_delete collection content_id s) = Raise e).
Proof.
  exists (is_ok (fst (coll_delete collection content_id s))).
  split; [apply delete_content_run|].
  destruct (coll_delete collection content_id s) as [[u|e] s1]; simpl;
    repeat split; intros; eauto; try discriminate;
    match goal with H : exists _, _ |- _ => destruct H; discriminate end.
Qed.

(** C6: the similarity scores of what [search_content] returns never
    increase from one element to the next, provided the index reports
    its distances closest first. *)
Theorem search_content_non_increasing
    (query : pystr) (n : Z) (w : option pydict) (s s' : Coll)
    (rs : list SearchResult) :
  (forall emb results,
      coll_query collection emb n w s = Ok results ->
      Spec.ascending (distances0 results)) ->
  search_content collection libs query n w s = (Ok rs, s') ->
  Spec.non_increasing (map sr_similarity_score rs).
Proof.
  intros Hasc H. apply search_content_inv in H.
  destruct H as (_ & emb & results & _ & Hq & Hl).
  apply search_loop_inv in Hl. destruct Hl as (new & -> & _ & Hscores).
  simpl. rewrite Hscores. apply similarity_reverses_order.
  apply strongly_sorted_firstn. simpl. exact (Hasc _ _ Hq).
Qed.

(** C7, as the code has it: every similarity score that
    [search_content] or [search_similar_content] returns is [1 - d] for
    the distance [d] that the index reported, in the query the operation
    made, for the entry the result is built from: in a search the entry
    at the result's own position, in a search for similar content an
    entry with the result's id. So a score lies in [[0, 1]] exactly when
    that distance does. The code applies no bound of its own. *)
Theorem similarity_is_one_minus_distance
    (query : pystr) (c : ContentItem) (n : Z) (w : option pydict)
    (ex : bool) (s s' : Coll) (rs : list SearchResult) :
  (search_content collection libs query n w s = (Ok rs, s') ->
     exists emb results,
       encode libs query = Ok emb
       /\ coll_query collection emb n w s = Ok results
       /\ forall i r,
            nth_error rs i = Some r ->
            exists d,
              nth_error (ids0 results) i = Some (sr_id r)
              /\ nth_error (distances0 results) i = Some d
              /\ sr_similarity_score r = 1 - d
              /\ (Spec.in_unit_interval (sr_similarity_score r)
                  <-> Spec.in_unit_interval d))
  /\ (search_similar_content collection libs c n ex s = (Ok rs, s') ->
        exists emb results,
          encode libs (_prepare_text_for_embedding c) = Ok emb
          /\ coll_query collection emb (n + (if ex then 1 else 0))%Z None s
             = Ok results
          /\ forall r,
               In r rs ->
               exists p d,
                 nth_error (ids0 results) p = Some (sr_id r)
                 /\ nth_error (distances0 results) p = Some d
                 /\ sr_similarity_score r = 1 - d
                 /\ (Spec.in_unit_interval (sr_similarity_score r)
                     <-> Spec.in_unit_interval d)).
Proof.
  split; intros H.
  - apply search_content_inv in H.
    destruct H as (_ & emb & results & He & Hq & Hl).
    exists emb, results. split; [exact He|]. split; [exact Hq|].
    apply search_loop_positions in Hl. destruct Hl as (new & -> & Hpos).
    simpl. intros i r Hr. destruct (Hpos _ _ Hr) as (d & Hi & Hd & Hs).
    exists d. simpl in Hd.
    split; [exact Hi|]. split; [exact Hd|]. split; [exact Hs|].
    rewrite Hs. apply one_minus_in_unit_interval.
  - apply search_similar_content_inv in H.
    destruct H as (_ & emb & results & all & He & Hq & Hl & ->).
    exists emb, results. split; [exact He|]. split; [exact Hq|].
    apply similar_loop_positions in Hl; [|intros j x Hj; exact Hj].
    destruct Hl as (new & -> & Hall). simpl.
    intros r Hr. apply in_py_slice_to in Hr.
    rewrite Forall_forall in Hall.
    destruct (Hall _ Hr) as (p & d & Hi & Hd & Hs).
    exists p, d.
    split; [exact Hi|]. split; [exact Hd|]. split; [exact Hs|].
    rewrite Hs. apply one_minus_in_unit_interval.
Qed.

(** *** Retrieval and update *)

(** The [ContentItem(...)] call of [retrieve_content] never completes:
    whatever the stored metadata, evaluating its arguments raises, at the
    latest when it reaches the name [datetime], which the module does not
    bind. *)
Lemma rebuild_raises (content_id : pystr) (metadata : pydict) (document : pystr) :
  exists e, rebuild libs content_id metadata document = Raise e.
Proof.
  unfold rebuild.
  repeat match goal with
    | |- exists e, and_then (load_global "datetime") _ = Raise e =>
        rewrite load_global_datetime; cbn [and_then]; eexists; reflexivity
    | |- exists e, and_then ?r _ = Raise e =>
        destruct r as [?|?]; cbn [and_then]; [|eexists; reflexivity]
    end.
Qed.

(** With the snapshot [store_content] writes, and when [json.loads] reads
    the three lists back, the call fails exactly at the name [datetime]. *)
Lemma rebuild_snapshot_raises_name_error
    (c : ContentItem) (document : pystr) (la lc lt : list pystr) :
  json_loads libs (json_dumps libs (authors c)) = Ok la ->
  json_loads libs (json_dumps libs (categories c)) = Ok lc ->
  json_loads libs (json_dumps libs (tags c)) = Ok lt ->
  rebuild libs (id c) (snapshot libs c) document
    = Raise (mk_exn NameError (lit "name 'datetime' is not defined")).
Proof.
  intros Ha Hc Ht. unfold rebuild.
  change (dict_getitem (snapshot libs c) (lit "title"))
    with (Ok (VStr (title c))).
  change (dict_getitem (snapshot libs c) (lit "url"))
    with (Ok (VStr (url c))).
  change (dict_getitem (snapshot libs c) (lit "content_type"))
    with (Ok (VStr (ContentType_value (content_type c)))).
  change (dict_getitem (snapshot libs c) (lit "source_name"))
    with (Ok (VStr (source_name c))).
  change (dict_get (snapshot libs c) (lit "authors") (VStr (lit "[]")))
    with (VStr (json_dumps libs (authors c))).
  change (dict_get (snapshot libs c) (lit "categories") (VStr (lit "[]")))
    with (VStr (json_dumps libs (categories c))).
  change (dict_get (snapshot libs c) (lit "tags") (VStr (lit "[]")))
    with (VStr (json_dumps libs (tags c))).
  cbn [and_then as_str]. rewrite Ha, Hc, Ht.
  cbn [and_then]. rewrite load_global_datetime. reflexivity.
Qed.

(** [retrieve_content] returns [None] for an id the collection does not
    hold and raises a [VectorStoreException] in every other case: it
    never returns a record. *)
Lemma retrieve_content_cases (content_id : pystr) (s : Coll) :
  (exists g, coll_get collection content_id s = Ok g /\ g_ids g = []
             /\ retrieve_content collection libs content_id s = (Ok None, s))
  \/ (exists e, retrieve_content collection libs content_id s = (Raise e, s)
                /\ exn_class e = VectorStoreException).
Proof.
  unfold retrieve_content. run_monad.
  destruct (coll_get collection content_id s) as [g|e] eqn:Eg.
  - destruct (g_ids g) as [|i ids] eqn:Ei; simpl.
    + left. exists g. auto.
    + right.
      destruct (py_index (g_metadatas g) 0) as [md|e]; [|eauto].
      destruct (py_index (g_documents g) 0) as [doc|e]; [|eauto].
      destruct (rebuild_raises content_id md doc) as [e ->]. eauto.
  - right. eauto.
Qed.

Lemma retrieve_content_never_returns_a_record
    (content_id : pystr) (s s' : Coll) (r : ContentItem) :
  retrieve_content collection libs content_id s <> (Ok (Some r), s').
Proof.
  destruct (retrieve_content_cases content_id s)
    as [(g & _ & _ & ->)|(e & -> & _)]; discriminate.
Qed.

(** [update_content] is [delete_content] followed by [store_content]: the
    index it leaves is the one the two calls leave in sequence, and it
    returns [True] exactly when the store returned. *)
Lemma update_content_is_delete_then_store (c : ContentItem) (s : Coll) :
  let s1 := snd (delete_content collection (id c) s) in
  update_content collection libs c s
    = (Ok (is_ok (fst (store_content collection libs c s1))),
       snd (store_content collection libs c s1)).
Proof.
  cbv zeta. unfold update_content, bind at 1. unfold try_except at 1.
  unfold bind. rewrite delete_content_run. unfold ret. cbn [fst snd].
  destruct (store_content collection libs c
              (snd (coll_delete collection (id c) s))) as [[i|e] s2];
    reflexivity.
Qed.

End ToolFacts.

End VectorStoreFacts.

(* ===================================================================== *)
(** ** The reference index, and the operations run on it *)
(* ===================================================================== *)

Module ReferenceFacts.

Import Models VectorStore Reference VectorStoreFacts.

(** *** The reference index ranks closest first *)

Section Rank.

Variable key : Entry -> Q.

Lemma insert_by_in (x y : Entry) (l : list Entry) :
  In y (insert_by key x l) -> y = x \/ In y l.
Proof.
  induction l as [|z l IH]; simpl.
  - intros [H|[]]; auto.
  - destruct (Qle_bool (key x) (key z)); simpl.
    + intros [H|H]; auto.
    + intros [H|H]; auto. destruct (IH H); auto.
Qed.

Lemma insert_by_sorted (x : Entry) (l : list Entry) :
  Spec.ascending (map key l) -> Spec.ascending (map key (insert_by key x l)).
Proof.
  unfold Spec.ascending.
  induction l as [|z l IH]; simpl; intros Hs.
  - repeat constructor.
  - inversion Hs as [|? ? Hs' Hall]; subst.
    destruct (Qle_bool (key x) (key z)) eqn:E; simpl.
    + apply Qle_bool_iff in E. constructor; [exact Hs|].
      constructor; [exact E|].
      rewrite Forall_forall in *. intros q Hq.
      apply Qle_trans with (key z); auto.
    + assert (Hlt : key z < key x).
      { apply Qnot_le_lt. intros Hc. apply Qle_bool_iff in Hc.
        rewrite Hc in E. discriminate. }
      constructor; [apply IH; exact Hs'|].
      rewrite Forall_map. rewrite Forall_map in Hall.
      rewrite Forall_forall in *. intros y Hy.
      destruct (insert_by_in _ _ _ Hy) as [->|Hin].
      * apply Qlt_le_weak; exact Hlt.
      * apply Hall; exact Hin.
Qed.

Lemma rank_sorted (l : list Entry) : Spec.ascending (map key (rank key l)).
Proof.
  induction l as [|x l IH]; simpl.
  - constructor.
  - apply insert_by_sorted; exact IH.
Qed.

End Rank.

(** The distances of a query on the reference index are ascending. *)
Lemma query_ascending (v : list Q) (k : Z) (w : option pydict) (s : Index)
    (results : QueryResult) :
  query v k w s = Ok results -> Spec.ascending (distances0 results).
Proof.
  unfold query. destruct (k <=? 0)%Z; [discriminate|].
  intros H; injection H as <-. unfold distances0; simpl.
  rewrite <- firstn_map. apply strongly_sorted_firstn. apply rank_sorted.
Qed.

(** Deleting an id the reference index does not hold changes nothing. *)
Lemma delete_absent (i : pystr) (s : Index) :
  filter (has_id i) s = [] -> delete i s = (Ok tt, s).
Proof.
  unfold delete. intros H. f_equal.
  induction s as [|e s IH]; simpl in *; [reflexivity|].
  destruct (has_id i e); [discriminate|]. simpl. f_equal. exact (IH H).
Qed.

(** *** Store, update and retrieval on the reference index *)

Lemma filter_out_then_in (i : pystr) (s : Index) :
  filter (has_id i) (filter (fun e => negb (has_id i e)) s) = [].
Proof.
  induction s as [|e s IH]; simpl; [reflexivity|].
  destruct (has_id i e) eqn:E; simpl; [exact IH|].
  rewrite E. exact IH.
Qed.

Lemma filter_out_twice (i : pystr) (s : Index) :
  filter (fun e => negb (has_id i e)) (filter (fun e => negb (has_id i e)) s)
  = filter (fun e => negb (has_id i e)) s.
Proof.
  induction s as [|e s IH]; simpl; [reflexivity|].
  destruct (has_id i e) eqn:E; simpl; [exact IH|].
  rewrite E. simpl. f_equal. exact IH.
Qed.

(** After an insert the index holds exactly one entry under the id. *)
Lemma fetch_after_insert (i : pystr) (v : list Q) (t : pystr) (md : pydict)
    (s : Index) :
  fetch i (snd (insert i v t md s))
  = Ok {| g_ids := [i]; g_documents := [t]; g_metadatas := [md] |}.
Proof.
  unfold fetch, insert; simpl.
  rewrite filter_app, filter_out_then_in. simpl.
  unfold has_id; simpl. rewrite pystr_eqb_refl. reflexivity.
Qed.

Lemma store_content_on_reference (libs : Libraries) (c : ContentItem)
    (emb : list Q) (s : Index) :
  encode libs (_prepare_text_for_embedding c) = Ok emb ->
  store_content index libs c s
  = (Ok (id c),
     snd (insert (id c) emb (_prepare_text_for_embedding c) (snapshot libs c) s)).
Proof.
  intros He. unfold store_content. run_monad. rewrite He. reflexivity.
Qed.

(** For every record and every state of the reference index: once the
    record is stored, retrieving it by the returned id raises. *)
Lemma retrieve_after_store_raises (libs : Libraries) (c : ContentItem)
    (emb : list Q) (s : Index) :
  encode libs (_prepare_text_for_embedding c) = Ok emb ->
  exists s1 e,
    store_content index libs c s = (Ok (id c), s1)
    /\ retrieve_content index libs (id c) s1 = (Raise e, s1)
    /\ exn_class e = VectorStoreException.
Proof.
  intros He. rewrite (store_content_on_reference _ _ s He).
  eexists.
  destruct (retrieve_content_cases index libs (id c)
              (snd (insert (id c) emb (_prepare_text_for_embedding c)
                      (snapshot libs c) s)))
    as [(g & Hg & Hids & _)|(e & Hr & Hc)].
  - cbn [coll_get index] in Hg. rewrite fetch_after_insert in Hg.
    injection Hg as <-. discriminate Hids.
  - exists e. auto.
Qed.

(** When the index holds exactly one entry under the record's id and the
    embedding succeeds, an update returns [True] and keeps the count. *)
Lemma update_keeps_count (libs : Libraries) (c : ContentItem)
    (emb : list Q) (s : Index) :
  encode libs (_prepare_text_for_embedding c) = Ok emb ->
  List.length (filter (has_id (id c)) s) = 1%nat ->
  fst (update_content index libs c s) = Ok true
  /\ count (snd (update_content index libs c s)) = count s.
Proof.
  intros He Hone. rewrite update_content_is_delete_then_store. cbv zeta.
  rewrite (store_content_on_reference _ _ _ He). simpl.
  split; [reflexivity|].
  unfold count. rewrite filter_out_twice, length_app. simpl.
  pose proof (filter_length (has_id (id c)) s) as Hlen.
  rewrite Hone in Hlen. f_equal. lia.
Qed.

(** *** C1 and C5: retrieval after a store or an update *)

(** C1 fails on the code: [rec_a] is stored in the empty index and its id
    returned; the index then holds the entry; retrieving by that id raises
    a [VectorStoreException] whose text reports that the name [datetime]
    is not defined, instead of returning a record with that id. *)
Theorem store_then_retrieve_raises :
  store_content index toy_libs rec_a [] = (Ok (id rec_a), index_a)
  /\ fetch (id rec_a) index_a
     = Ok {| g_ids := [id rec_a];
             g_documents := [_prepare_text_for_embedding rec_a];
             g_metadatas := [snapshot toy_libs rec_a] |}
  /\ retrieve_content index toy_libs (id rec_a) index_a
     = (Raise (mk_exn VectorStoreException
                 (retrieve_failed ++ lit "name 'datetime' is not defined")),
        index_a).
Proof. repeat split. Qed.

(** C5 fails on the code at the retrieval: updating [rec_a], which is in
    the index, to [rec_a_new] returns [True], leaves the count unchanged
    and puts the new text under the id, but retrieving by that id raises
    the same [VectorStoreException] instead of returning the new content. *)
Theorem update_then_retrieve_raises :
  id rec_a_new = id rec_a
  /\ fst (update_content index toy_libs rec_a_new index_ab) = Ok true
  /\ count (snd (update_content index toy_libs rec_a_new index_ab))
     = count index_ab
  /\ fetch (id rec_a)
       (snd (update_content index toy_libs rec_a_new index_ab))
     = Ok {| g_ids := [id rec_a];
             g_documents := [_prepare_text_for_embedding rec_a_new];
             g_metadatas := [snapshot toy_libs rec_a_new] |}
  /\ fst (retrieve_content index toy_libs (id rec_a)
            (snd (update_content index toy_libs rec_a_new index_ab)))
     = Raise (mk_exn VectorStoreException
                (retrieve_failed ++ lit "name 'datetime' is not defined")).
Proof. repeat split. Qed.

(** The failure is the missing name also for a record with authors and
    tags, whose lists the stand-in for [json] reads back. *)
Example rebuild_full_raises_name_error :
  rebuild toy_libs (id rec_full) (snapshot toy_libs rec_full)
    (_prepare_text_for_embedding rec_full)
  = Raise (mk_exn NameError (lit "name 'datetime' is not defined")).
Proof.
  exact (@rebuild_snapshot_raises_name_error toy_libs rec_full _
           [lit "Ann"; lit "Bob"] [] [lit "ai"] eq_refl eq_refl eq_refl).
Qed.

(** *** C2: a store whose embedding fails *)

Lemma store_content_atomic_on_embedding_failure_witness :
  encode toy_libs (_prepare_text_for_embedding rec_empty)
    = Raise (mk_exn CollaboratorError (lit "cannot embed empty text"))
  /\ store_content index toy_libs rec_empty index_ab
     = (Raise (mk_exn VectorStoreException
                 (store_failed ++ lit "cannot embed empty text")),
        index_ab)
  /\ coll_count index (snd (store_content index toy_libs rec_empty index_ab))
     = coll_count index index_ab.
Proof.
  split; [reflexivity|].
  exact (@store_content_atomic_on_embedding_failure Index index toy_libs
           rec_empty _ index_ab eq_refl).
Defined.

(** *** C3: similar content without the record itself *)

Lemma search_similar_excludes_self_witness :
  (1 <= 1)%Z
  /\ exists rs,
       search_similar_content index toy_libs rec_a 1 true index_ab
         = (Ok rs, index_ab)
       /\ map sr_id rs = [id rec_b]
       /\ (forall r, In r rs -> sr_id r <> id rec_a)
       /\ (Z.of_nat (List.length rs) <= 1)%Z.
Proof.
  split; [lia|]. eexists. split; [reflexivity|]. split; [reflexivity|].
  pose proof (@search_similar_excludes_self Index index toy_libs rec_a 1
                index_ab index_ab _ ltac:(lia) eq_refl) as (H1 & H2 & _).
  split; [exact H1 | exact H2].
Defined.

(** *** C4: deleting an id that is not in the index *)

(** C4 as stated fails: the reference index holds no entry with id
    [zzz], and [delete_content] on that id returns [True], not [False]. *)
Lemma delete_unknown_id_returns_true :
  fetch (lit "zzz") index_ab
    = Ok {| g_ids := []; g_documents := []; g_metadatas := [] |}
  /\ delete_content index (lit "zzz") index_ab = (Ok true, index_ab).
Proof. split; reflexivity. Qed.

(** On the reference index, whose [delete] does not raise,
    [delete_content] returns [True] for every id, present or not. *)
Lemma delete_content_on_reference (i : pystr) (s : Index) :
  fst (delete_content index i s) = Ok true.
Proof. reflexivity. Qed.

(** *** C6 and C7: the scores of a search *)

Lemma search_content_non_increasing_witness :
  exists rs,
    search_content index toy_libs (lit "q") 10 None index_ab = (Ok rs, index_ab)
    /\ map sr_id rs = [id rec_a; id rec_b]
    /\ Spec.non_increasing (map sr_similarity_score rs).
Proof.
  eexists. split; [reflexivity|]. split; [reflexivity|].
  apply (@search_content_non_increasing Index index toy_libs (lit "q") 10 None
           index_ab index_ab).
  - intros emb results H. exact (query_ascending _ _ _ _ H).
  - reflexivity.
Defined.

(** C7 as stated fails: a search in the index of [rec_a] and [rec_b],
    whose embeddings are the unit vectors [[1]] and [[-1]], returns the
    scores [1] and [-3]; the second is below 0. *)
Lemma similarity_score_below_zero :
  exists rs,
    search_content index toy_libs (lit "q") 10 None index_ab = (Ok rs, index_ab)
    /\ map sr_similarity_score rs = [1; -3]
    /\ exists r, In r rs /\ sr_similarity_score r < 0.
Proof.
  eexists. split; [reflexivity|]. split; [reflexivity|].
  eexists. split; [right; left; reflexivity|]. reflexivity.
Qed.

Lemma similarity_is_one_minus_distance_witness :
  exists rs,
    search_content index toy_libs (lit "q") 10 None index_ab = (Ok rs, index_ab)
    /\ map sr_similarity_score rs = [1; -3]
    /\ exists emb results,
         encode toy_libs (lit "q") = Ok emb
         /\ query emb 10 None index_ab = Ok results
         /\ distances0 results = [0; 4]
         /\ forall i r,
              nth_error rs i = Some r ->
              exists d,
                nth_error (ids0 results) i = Some (sr_id r)
                /\ nth_error (distances0 results) i = Some d
                /\ sr_similarity_score r = 1 - d
                /\ (Spec.in_unit_interval (sr_similarity_score r)
                    <-> Spec.in_unit_interval d).
Proof.
  eexists. split; [reflexivity|]. split; [reflexivity|].
  destruct (proj1 (@similarity_is_one_minus_distance Index index toy_libs
                     (lit "q") rec_a 10 None true index_ab index_ab _)
              eq_refl)
    as (emb & results & He & Hq & Hpos).
  exists emb, results. split; [exact He|]. split; [exact Hq|].
  split; [|exact Hpos].
  injection He as <-. injection Hq as <-. reflexivity.
Defined.

End ReferenceFacts.

(* ===================================================================== *)
(** ** More on the data model ([models.py]) *)
(* ===================================================================== *)

Module MoreModelsFacts.

Import Models.

Lemma validate_unit_interval_some (x y : Q) :
  validate_unit_interval x = Some y <-> (y = x /\ 0 <= x /\ x <= 1).
Proof.
  unfold validate_unit_interval.
  destruct (Qle_bool 0 x) eqn:E0; destruct (Qle_bool x 1) eqn:E1; simpl;
    split; try discriminate.
  - intros H; injection H as <-. apply Qle_bool_iff in E0, E1. auto.
  - intros (-> & _); reflexivity.
  - intros (_ & _ & H). apply Qle_bool_iff in H. congruence.
  - intros (_ & H & _). apply Qle_bool_iff in H. congruence.
  - intros (_ & H & _). apply Qle_bool_iff in H. congruence.
Qed.

(** X1: a record that [ContentItem(...)] returns has its quality score in
    [[0, 1]], namely the score given, and always has a quality level,
    although the field is declared optional. *)
Theorem constructed_item_has_score_in_range_and_a_level
    (now : datetime) (a : ContentItem_args) (it : ContentItem) :
  ContentItem_init now a = Ok it ->
  quality_score it = a_quality_score a
  /\ 0 <= quality_score it /\ quality_score it <= 1
  /\ exists level, quality_level it = Some level.
Proof.
  intros H. apply ModelsFacts.ContentItem_init_inv in H.
  destruct H as (Hv & Hl & _).
  apply validate_unit_interval_some in Hv. destruct Hv as (Hs & H0 & H1).
  rewrite Hs. repeat split; auto.
  rewrite Hl. destruct (a_quality_level a) as [v|].
  - exists v; reflexivity.
  - rewrite ModelsFacts.set_quality_level_bucket. eauto.
Qed.

Lemma constructed_item_has_score_in_range_and_a_level_witness :
  exists it,
    ContentItem_init 0%Z (Reference.args_with (1 # 2) None) = Ok it
    /\ quality_score it = 1 # 2
    /\ 0 <= quality_score it /\ quality_score it <= 1
    /\ exists level, quality_level it = Some level.
Proof.
  eexists. split; [reflexivity|].
  exact (@constructed_item_has_score_in_range_and_a_level 0%Z
           (Reference.args_with (1 # 2) None) _ eq_refl).
Defined.

(** X2: [ContentItem(...)] with a quality score below 0 or above 1 raises
    a validation error, whatever quality level is given with it. *)
Theorem out_of_range_score_is_rejected (now : datetime) (a : ContentItem_args) :
  a_quality_score a < 0 \/ 1 < a_quality_score a ->
  exists e, ContentItem_init now a = Raise e /\ exn_class e = ValidationError.
Proof.
  intros H. unfold ContentItem_init.
  destruct (validate_unit_interval (a_quality_score a)) as [y|] eqn:E.
  - apply validate_unit_interval_some in E. destruct E as (_ & H0 & H1).
    exfalso. destruct H as [H|H]; lra.
  - eexists. split; reflexivity.
Qed.

Lemma out_of_range_score_is_rejected_witness :
  (3 # 2 < 0 \/ 1 < 3 # 2)
  /\ exists e,
       ContentItem_init 0%Z (Reference.args_with (3 # 2) (Some HIGH)) = Raise e
       /\ exn_class e = ValidationError.
Proof.
  split; [right; reflexivity|].
  exact (@out_of_range_score_is_rejected 0%Z
           (Reference.args_with (3 # 2) (Some HIGH)) (or_intror eq_refl)).
Defined.

Lemma bucket_rank_monotone (s1 s2 : Q) :
  s1 <= s2 ->
  (Aux.level_rank (Spec.bucket s1) <= Aux.level_rank (Spec.bucket s2))%nat.
Proof.
  intros H. unfold Spec.bucket.
  destruct (Qle_bool (8 # 10) s1) eqn:A1; destruct (Qle_bool (6 # 10) s1) eqn:B1;
    destruct (Qle_bool (3 # 10) s1) eqn:C1;
    destruct (Qle_bool (8 # 10) s2) eqn:A2; destruct (Qle_bool (6 # 10) s2) eqn:B2;
    destruct (Qle_bool (3 # 10) s2) eqn:C2; simpl; try lia; exfalso;
    repeat match goal with
      | H : Qle_bool _ _ = true |- _ => apply Qle_bool_iff in H
      | H : Qle_bool _ _ = false |- _ =>
          assert (~ _) by (intros Hc; apply Qle_bool_iff in Hc;
                           rewrite Hc in H; discriminate H);
          clear H
      end; lra.
Qed.

(** X3: the validator is monotone: of two scores, the higher one never
    gets the lower quality level (very low, low, medium, high). *)
Theorem quality_level_is_monotone (s1 s2 : Q) :
  s1 <= s2 ->
  exists l1 l2,
    set_quality_level None (Some s1) = Some l1
    /\ set_quality_level None (Some s2) = Some l2
    /\ (Aux.level_rank l1 <= Aux.level_rank l2)%nat.
Proof.
  intros H. exists (Spec.bucket s1), (Spec.bucket s2).
  rewrite !ModelsFacts.set_quality_level_bucket.
  repeat split. apply bucket_rank_monotone; exact H.
Qed.

Lemma quality_level_is_monotone_witness :
  exists l1 l2,
    set_quality_level None (Some (1 # 2)) = Some l1
    /\ set_quality_level None (Some (7 # 10)) = Some l2
    /\ (Aux.level_rank l1 <= Aux.level_rank l2)%nat.
Proof.
  exact (@quality_level_is_monotone (1 # 2) (7 # 10) ltac:(discriminate)).
Defined.

End MoreModelsFacts.

(* ===================================================================== *)
(** ** More on the text projector *)
(* ===================================================================== *)

Module ProjectorFacts.

Import Models VectorStore.

Lemma py_join_two_nonempty (sep p : pystr) (q : pystr) (rest : list pystr) :
  sep <> [] -> py_join sep (p :: q :: rest) <> [].
Proof.
  intros Hsep H. simpl in H.
  apply app_eq_nil in H. destruct H as (_ & H).
  apply app_eq_nil in H. destruct H as (H & _). contradiction.
Qed.

(** X4: the text to embed is empty exactly when the title is empty and
    there is no summary text, no body, no author and no tag. *)
Theorem prepared_text_empty_iff (c : ContentItem) :
  _prepare_text_for_embedding c = [] <->
  title c = [] /\ summary_text c = [] /\ content c = []
  /\ authors c = [] /\ tags c = [].
Proof.
  unfold _prepare_text_for_embedding, summary_text, append_if, truthy.
  destruct (summary c) as [[|x s]|];
    destruct (content c) as [|y b];
    destruct (authors c) as [|u us];
    destruct (tags c) as [|t ts];
    cbn [app];
    try (split;
         [ intros H; exfalso; revert H; apply py_join_two_nonempty; discriminate
         | intros (_ & H1 & H2 & H3 & H4); discriminate ]);
    (cbn [py_join]; split; [intros ->; auto | intros (-> & _); reflexivity]).
Qed.

Lemma firstn_1000_truthy (b1 b2 : pystr) :
  firstn 1000 b1 = firstn 1000 b2 -> truthy b1 = truthy b2.
Proof.
  change 1000%nat with (S 999).
  destruct b1, b2; rewrite ?firstn_cons; simpl; congruence.
Qed.

(** X5: the body counts only through its first 1000 characters: two
    records with the same title, summary, authors and tags whose bodies
    agree on their first 1000 characters give the same text to embed. *)
Theorem prepared_text_ignores_body_past_1000 (c1 c2 : ContentItem) :
  title c1 = title c2 -> summary c1 = summary c2 ->
  authors c1 = authors c2 -> tags c1 = tags c2 ->
  firstn 1000 (content c1) = firstn 1000 (content c2) ->
  _prepare_text_for_embedding c1 = _prepare_text_for_embedding c2.
Proof.
  intros Ht Hs Ha Hg Hb.
  unfold _prepare_text_for_embedding, summary_text.
  rewrite Ht, Hs, Ha, Hg, Hb, (firstn_1000_truthy _ _ Hb). reflexivity.
Qed.

Lemma prepared_text_ignores_body_past_1000_witness :
  content (Aux.rec_long 65) <> content (Aux.rec_long 66)
  /\ _prepare_text_for_embedding (Aux.rec_long 65)
     = _prepare_text_for_embedding (Aux.rec_long 66).
Proof.
  split.
  - intros H. apply app_inv_head in H. discriminate H.
  - exact (@prepared_text_ignores_body_past_1000 (Aux.rec_long 65)
             (Aux.rec_long 66) eq_refl eq_refl eq_refl eq_refl eq_refl).
Defined.

End ProjectorFacts.

(* ===================================================================== *)
(** ** More on the operations of the index ([vector_store.py]) *)
(* ===================================================================== *)

Module MoreVectorStoreFacts.

Import Models VectorStore VectorStoreFacts.

Lemma try_except_wrap_inv {St A} (body : M St A) (prefix : pystr)
    (s s' : St) (e : exn) :
  try_except body (fun e0 => raise (wrap prefix e0)) s = (Raise e, s') ->
  exists e0, body s = (Raise e0, s') /\ e = wrap prefix e0.
Proof.
  unfold try_except, raise.
  destruct (body s) as [[a|e0] s0]; [discriminate|].
  intros H; injection H as <- <-. eauto.
Qed.

Lemma wrapped_is_vector_store_exception (prefix : pystr) (e e0 : exn) :
  e = wrap prefix e0 ->
  exn_class e = VectorStoreException
  /\ exists e1, exn_str e = prefix ++ exn_str e1.
Proof. intros ->. split; [reflexivity | exists e0; reflexivity]. Qed.

Lemma result_at_inv_fields (results : QueryResult) (i : nat) (doc_id : pystr)
    (r : SearchResult) :
  result_at results i doc_id = Ok r ->
  nth_error (Aux.documents0 results) i = Some (sr_content r)
  /\ nth_error (Aux.metadatas0 results) i = Some (sr_metadata r).
Proof.
  unfold result_at, and_then, py_index, Aux.documents0, Aux.metadatas0.
  destruct (q_documents results) as [|docs ?]; simpl; [discriminate|].
  destruct (nth_error docs i) as [doc|]; [|discriminate].
  destruct (q_metadatas results) as [|mds ?]; simpl; [discriminate|].
  destruct (nth_error mds i) as [md|]; [|discriminate].
  destruct (q_distances results) as [|ds ?]; simpl; [discriminate|].
  destruct (nth_error ds i) as [d|]; [|discriminate].
  intros H; injection H as <-; simpl. auto.
Qed.

Lemma search_loop_inv_fields (results : QueryResult) (ids : list pystr) :
  forall (i : nat) (acc rs : list SearchResult),
    search_loop results i ids acc = Ok rs ->
    exists new,
      rs = acc ++ new
      /\ map sr_content new
         = firstn (List.length ids) (skipn i (Aux.documents0 results))
      /\ map sr_metadata new
         = firstn (List.length ids) (skipn i (Aux.metadatas0 results)).
Proof.
  induction ids as [|doc_id rest IH]; intros i acc rs; simpl.
  - intros H; injection H as <-. exists []. rewrite app_nil_r. auto.
  - unfold and_then at 1.
    destruct (result_at results i doc_id) as [r|e] eqn:Er; [|discriminate].
    intros H. apply IH in H. destruct H as (new & -> & Hc & Hm).
    apply result_at_inv_fields in Er. destruct Er as (Hd & Hmd).
    exists (r :: new). rewrite <- app_assoc. simpl.
    rewrite (skipn_nth_error_cons _ _ Hd), (skipn_nth_error_cons _ _ Hmd).
    simpl. rewrite Hc, Hm. auto.
Qed.

Lemma filter_absent (x : pystr) (l : list pystr) :
  ~ In x l -> filter (fun d => negb (pystr_eqb d x)) l = l.
Proof.
  induction l as [|y l IH]; simpl; [reflexivity|].
  intros H. destruct (pystr_eqb y x) eqn:E; simpl.
  - apply pystr_eqb_eq in E. exfalso. apply H. left; exact E.
  - f_equal. apply IH. intros Hin. apply H. right; exact Hin.
Qed.

Lemma filter_drops_at_most_one (x : pystr) (l : list pystr) :
  NoDup l ->
  (List.length l <= S (List.length (filter (fun d => negb (pystr_eqb d x)) l)))%nat.
Proof.
  induction 1 as [|y l Hnotin Hnodup IH]; simpl; [lia|].
  destruct (pystr_eqb y x) eqn:E; simpl.
  - apply pystr_eqb_eq in E. subst y. rewrite (filter_absent _ _ Hnotin). lia.
  - lia.
Qed.

Section Operations.

Variable Coll : Type.
Variable collection : Collection Coll.
Variable libs : Libraries.

(** X6: when [store_content], [retrieve_content], [search_content] or
    [search_similar_content] raises, what the caller sees is a
    [VectorStoreException] whose text is the operation's own prefix
    followed by [str(e0)], where [e0] is the exception of the first step
    of the operation that raised: the embedding, the call of the
    collection, the indexing of its answer, the loop over the answer or,
    in a retrieval, the construction of the record. *)
Theorem failures_are_vector_store_exceptions
    (c : ContentItem) (content_id query : pystr) (n : Z) (w : option pydict)
    (ex : bool) (s s' : Coll) (e : exn) :
  (store_content collection libs c s = (Raise e, s') ->
     exists e0,
       e = mk_exn VectorStoreException (store_failed ++ exn_str e0)
       /\ (encode libs (_prepare_text_for_embedding c) = Raise e0
           \/ exists emb,
                encode libs (_prepare_text_for_embedding c) = Ok emb
                /\ coll_add collection (id c) emb
                     (_prepare_text_for_embedding c) (snapshot libs c) s
                   = (Raise e0, s')))
  /\ (retrieve_content collection libs content_id s = (Raise e, s') ->
        exists e0,
          e = mk_exn VectorStoreException (retrieve_failed ++ exn_str e0)
          /\ (coll_get collection content_id s = Raise e0
              \/ exists g,
                   coll_get collection content_id s = Ok g
                   /\ g_ids g <> []
                   /\ (py_index (g_metadatas g) 0 = Raise e0
                       \/ exists metadata,
                            py_index (g_metadatas g) 0 = Ok metadata
                            /\ (py_index (g_documents g) 0 = Raise e0
                                \/ exists document,
                                     py_index (g_documents g) 0 = Ok document
                                     /\ rebuild libs content_id metadata document
                                        = Raise e0))))
  /\ (search_content collection libs query n w s = (Raise e, s') ->
        exists e0,
          e = mk_exn VectorStoreException (search_failed ++ exn_str e0)
          /\ (encode libs query = Raise e0
              \/ exists emb,
                   encode libs query = Ok emb
                   /\ (coll_query collection emb n w s = Raise e0
                       \/ exists results,
                            coll_query collection emb n w s = Ok results
                            /\ (py_index (q_ids results) 0 = Raise e0
                                \/ exists ids,
                                     py_index (q_ids results) 0 = Ok ids
                                     /\ search_loop results 0 ids [] = Raise e0))))
  /\ (search_similar_content collection libs c n ex s = (Raise e, s') ->
        exists e0,
          e = mk_exn VectorStoreException (similar_failed ++ exn_str e0)
          /\ (encode libs (_prepare_text_for_embedding c) = Raise e0
              \/ exists emb,
                   encode libs (_prepare_text_for_embedding c) = Ok emb
                   /\ (coll_query collection emb
                         (n + (if ex then 1 else 0))%Z None s = Raise e0
                       \/ exists results,
                            coll_query collection emb
                              (n + (if ex then 1 else 0))%Z None s = Ok results
                            /\ (py_index (q_ids results) 0 = Raise e0
                                \/ exists ids,
                                     py_index (q_ids results) 0 = Ok ids
                                     /\ similar_loop results ex (id c) 0 ids []
                                        = Raise e0)))).
Proof.
  split; [|split; [|split]]; intros H; apply try_except_wrap_inv in H;
    destruct H as (e0 & H & ->); exists e0; (split; [reflexivity|]);
    revert H; run_monad.
  - destruct (encode libs (_prepare_text_for_embedding c)) as [emb|e1] eqn:Ee.
    + destruct (coll_add collection (id c) emb (_prepare_text_for_embedding c)
                  (snapshot libs c) s) as [[u|e2] s2] eqn:Ea;
        [discriminate|].
      intros H; injection H as <- <-. right. exists emb. auto.
    + intros H; injection H as <- _. left; reflexivity.
  - destruct (coll_get collection content_id s) as [g|e1] eqn:Eg.
    + destruct (g_ids g) as [|i0 ids] eqn:Ei; cbn [negb truthy];
        [discriminate|].
      assert (Hne : g_ids g <> []) by (rewrite Ei; discriminate).
      destruct (py_index (g_metadatas g) 0) as [md|e2] eqn:Em.
      * destruct (py_index (g_documents g) 0) as [doc|e3] eqn:Ed.
        -- destruct (rebuild libs content_id md doc) as [it|e4] eqn:Er;
             [discriminate|].
           intros H; injection H as <- _. right. exists g.
           split; [reflexivity|]. split; [exact Hne|].
           right. exists md. split; [exact Em|].
           right. exists doc. split; [exact Ed | exact Er].
        -- intros H; injection H as <- _. right. exists g.
           split; [reflexivity|]. split; [exact Hne|].
           right. exists md. split; [exact Em|]. left; exact Ed.
      * intros H; injection H as <- _. right. exists g.
        split; [reflexivity|]. split; [exact Hne|]. left; exact Em.
    + intros H; injection H as <- _. left; reflexivity.
  - destruct (encode libs query) as [emb|e1] eqn:Ee.
    + destruct (coll_query collection emb n w s) as [results|e2] eqn:Eq.
      * destruct (py_index (q_ids results) 0) as [ids|e3] eqn:Ei.
        -- destruct (search_loop results 0 ids []) as [rs|e4] eqn:El;
             [discriminate|].
           intros H; injection H as <- _. right. exists emb.
           split; [reflexivity|]. right. exists results.
           split; [exact Eq|]. right. exists ids. split; [exact Ei | exact El].
        -- intros H; injection H as <- _. right. exists emb.
           split; [reflexivity|]. right. exists results.
           split; [exact Eq|]. left; exact Ei.
      * intros H; injection H as <- _. right. exists emb.
        split; [reflexivity|]. left; exact Eq.
    + intros H; injection H as <- _. left; reflexivity.
  - destruct (encode libs (_prepare_text_for_embedding c)) as [emb|e1] eqn:Ee.
    + destruct (coll_query collection emb (n + (if ex then 1 else 0))%Z None s)
        as [results|e2] eqn:Eq.
      * destruct (py_index (q_ids results) 0) as [ids|e3] eqn:Ei.
        -- destruct (similar_loop results ex (id c) 0 ids []) as [rs|e4] eqn:El;
             [discriminate|].
           intros H; injection H as <- _. right. exists emb.
           split; [reflexivity|]. right. exists results.
           split; [exact Eq|]. right. exists ids. split; [exact Ei | exact El].
        -- intros H; injection H as <- _. right. exists emb.
           split; [reflexivity|]. right. exists results.
           split; [exact Eq|]. left; exact Ei.
      * intros H; injection H as <- _. right. exists emb.
        split; [reflexivity|]. left; exact Eq.
    + intros H; injection H as <- _. left; reflexivity.
Qed.

(** X7: when the embedding succeeds, [store_content] makes one [add] call,
    with the record's id, the embedding, the projected text as document
    and the metadata snapshot; it returns the record's id when that call
    returns and raises the wrapped exception when it raises. *)
Theorem store_content_makes_one_add
    (c : ContentItem) (emb : list Q) (s : Coll) :
  encode libs (_prepare_text_for_embedding c) = Ok emb ->
  store_content collection libs c s =
    match coll_add collection (id c) emb (_prepare_text_for_embedding c)
            (snapshot libs c) s with
    | (Ok _, s') => (Ok (id c), s')
    | (Raise e, s') =>
        (Raise (mk_exn VectorStoreException (store_failed ++ exn_str e)), s')
    end.
Proof.
  intros He. unfold store_content. run_monad. rewrite He.
  destruct (coll_add collection (id c) emb (_prepare_text_for_embedding c)
              (snapshot libs c) s) as [[u|e] s']; reflexivity.
Qed.

(** X8: [update_content] never raises; it returns [True] exactly when
    the store that follows the delete returns, and [False] when it
    raises. *)
Theorem update_content_never_raises (c : ContentItem) (s : Coll) :
  exists b : bool,
    fst (update_content collection libs c s) = Ok b
    /\ (b = true <->
          exists i, fst (store_content collection libs c
                           (snd (coll_delete collection (id c) s))) = Ok i)
    /\ (b = false <->
          exists e, fst (store_content collection libs c
                           (snd (coll_delete collection (id c) s))) = Raise e).
Proof.
  rewrite update_content_is_delete_then_store. cbv zeta.
  rewrite delete_content_run. cbn [fst snd].
  destruct (store_content collection libs c
              (snd (coll_delete collection (id c) s))) as [[i|e] s2];
    cbn [fst is_ok]; eexists; (split; [reflexivity|]);
    repeat split; intros; eauto; try discriminate;
    match goal with H : exists _, _ |- _ => destruct H; discriminate end.
Qed.

(** X9: there is no rollback: when the embedding of the new content
    fails, [update_content] returns [False] and leaves the index as the
    delete left it, so the old entry is gone. *)
Theorem update_content_loses_entry_when_embedding_fails
    (c : ContentItem) (e : exn) (s : Coll) :
  encode libs (_prepare_text_for_embedding c) = Raise e ->
  update_content collection libs c s
    = (Ok false, snd (coll_delete collection (id c) s)).
Proof.
  intros He. rewrite update_content_is_delete_then_store. cbv zeta.
  rewrite delete_content_run. cbn [fst snd].
  unfold store_content. run_monad. rewrite He. reflexivity.
Qed.

(** X10: asking for one neighbour more pays off: for [k >= 1], when the
    index answers the query for [k + 1] neighbours with [k + 1] distinct
    ids, [search_similar_content] with [exclude_self] returns exactly [k]
    results, whether or not the record itself is among the neighbours. *)
Theorem search_similar_returns_exactly_k
    (c : ContentItem) (k : Z) (s s' : Coll) (rs : list SearchResult) :
  (1 <= k)%Z ->
  (forall emb results,
      encode libs (_prepare_text_for_embedding c) = Ok emb ->
      coll_query collection emb (k + 1)%Z None s = Ok results ->
      NoDup (ids0 results)
      /\ List.length (ids0 results) = Z.to_nat (k + 1)) ->
  search_similar_content collection libs c k true s = (Ok rs, s') ->
  Z.of_nat (List.length rs) = k.
Proof.
  intros Hk Hidx H. apply search_similar_content_inv in H.
  destruct H as (_ & emb & results & all & He & Hq & Hl & ->).
  destruct (Hidx _ _ He Hq) as (Hnodup & Hlen).
  apply similar_loop_inv in Hl. destruct Hl as (new & -> & Hids & _).
  simpl in *. rewrite py_slice_to_nonneg by lia.
  assert (Hnew : (Z.to_nat k <= List.length new)%nat).
  { rewrite <- (length_map sr_id), Hids.
    pose proof (filter_drops_at_most_one (id c) Hnodup). lia. }
  rewrite firstn_length_le by exact Hnew. lia.
Qed.

(** X11: [search_content] returns one result per id of the query's
    answer, in the index's order, each with the document and the metadata
    the index reported at the same position; the collection is not
    changed. *)
Theorem search_content_keeps_index_order
    (query : pystr) (n : Z) (w : option pydict) (s s' : Coll)
    (rs : list SearchResult) :
  search_content collection libs query n w s = (Ok rs, s') ->
  s' = s
  /\ exists emb results,
       encode libs query = Ok emb
       /\ coll_query collection emb n w s = Ok results
       /\ map sr_id rs = ids0 results
       /\ map sr_content rs
          = firstn (List.length (ids0 results)) (Aux.documents0 results)
       /\ map sr_metadata rs
          = firstn (List.length (ids0 results)) (Aux.metadatas0 results).
Proof.
  intros H. apply search_content_inv in H.
  destruct H as (-> & emb & results & He & Hq & Hl).
  split; [reflexivity|]. exists emb, results.
  pose proof (search_loop_inv _ _ _ _ Hl) as (new & -> & Hids & _).
  pose proof (search_loop_inv_fields _ _ _ _ Hl) as (new' & Hnew & Hc & Hm).
  simpl in Hnew. subst new'. simpl in *. auto.
Qed.

(** X12: run through the tool wrapper, a search whose query cannot be
    embedded does not raise: [_run] returns a failed [ToolResult] whose
    error text carries both prefixes, that of [_execute] and that of
    [search_content], before the provider's text; the collection is not
    changed. *)
Theorem tool_run_reports_embedding_failure
    (name query : pystr) (e : exn) (s : Coll) :
  encode libs query = Raise e ->
  exists r,
    Base._run name (Base.tool_of (_execute collection libs)) query s
      = (Base.Ended (Ok r), s)
    /\ Base.success r = false
    /\ Base.data r = None
    /\ Base.error r = Some (execute_failed ++ search_failed ++ exn_str e).
Proof.
  intros He. eexists. split.
  - unfold Base._run, Base.try_except_Exception, Base.tool_of, Base.returns,
      _execute, search_content.
    run_monad. rewrite He. reflexivity.
  - repeat split.
Qed.

Lemma execute_after_search
    (query : pystr) (s s' : Coll) (rs : list SearchResult) :
  search_content collection libs query 10 None s = (Ok rs, s') ->
  _execute collection libs query s =
    (match coll_count collection s' with
     | Ok count =>
         Ok {| Base.success := true;
               Base.data := Some rs;
               Base.error := None;
               Base.metadata :=
                 [ (lit "query", VStr query);
                   (lit "total_results",
                    VNum (inject_Z (Z.of_nat (List.length rs))));
                   (lit "collection_size", VNum (inject_Z count)) ];
               Base.execution_time := None |}
     | Raise e => Raise (wrap execute_failed e)
     end, s').
Proof.
  intros H. unfold _execute, try_except, bind, read_call, ret, raise.
  rewrite H. destruct (coll_count collection s') as [count|e]; reflexivity.
Qed.

(** X13: run through the tool wrapper, a search that succeeds is followed
    by a call of the collection's [count]. When that call returns, [_run]
    gives a [ToolResult] with [success = True], the results of
    [search_content] for ten neighbours and no filter as data, and their
    number and the count in the metadata. When it raises [e], the results
    are dropped: [_run] gives a [ToolResult] with [success = False], no
    data and the error text of [_execute]'s prefix and [str(e)]. *)
Theorem tool_run_returns_search_results
    (name query : pystr) (s s' : Coll) (rs : list SearchResult) :
  search_content collection libs query 10 None s = (Ok rs, s') ->
  exists r,
    Base._run name (Base.tool_of (_execute collection libs)) query s
      = (Base.Ended (Ok r), s')
    /\ match coll_count collection s' with
       | Ok count =>
           Base.success r = true
           /\ Base.data r = Some rs
           /\ Base.error r = None
           /\ dict_lookup (Base.metadata r) (lit "total_results")
              = Some (VNum (inject_Z (Z.of_nat (List.length rs))))
           /\ dict_lookup (Base.metadata r) (lit "collection_size")
              = Some (VNum (inject_Z count))
       | Raise e =>
           Base.success r = false
           /\ Base.data r = None
           /\ Base.error r = Some (execute_failed ++ exn_str e)
       end.
Proof.
  intros H.
  unfold Base._run, Base.try_except_Exception, Base.tool_of, Base.returns.
  rewrite (execute_after_search _ _ H).
  destruct (coll_count collection s') as [count|e]; eexists;
    (split; [reflexivity|]); repeat split.
Qed.

(** X14: retrieving an id the collection does not hold is not an error:
    [retrieve_content] returns [None] and leaves the collection as it is. *)
Theorem retrieve_content_of_absent_id_is_none
    (content_id : pystr) (s : Coll) (g : GetResult) :
  coll_get collection content_id s = Ok g ->
  g_ids g = [] ->
  retrieve_content collection libs content_id s = (Ok None, s).
Proof.
  intros Hg Hids. unfold retrieve_content. run_monad.
  rewrite Hg, Hids. reflexivity.
Qed.

End Operations.

End MoreVectorStoreFacts.

(* ===================================================================== *)
(** ** The further operations run on the reference index *)
(* ===================================================================== *)

Module MoreReferenceFacts.

Import Models VectorStore Reference VectorStoreFacts MoreVectorStoreFacts.

Lemma failures_are_vector_store_exceptions_witness :
  exists e,
    store_content index toy_libs rec_empty index_ab = (Raise e, index_ab)
    /\ exists e0,
         e = mk_exn VectorStoreException (store_failed ++ exn_str e0)
         /\ (encode toy_libs (_prepare_text_for_embedding rec_empty) = Raise e0
             \/ exists emb,
                  encode toy_libs (_prepare_text_for_embedding rec_empty)
                    = Ok emb
                  /\ coll_add index (id rec_empty) emb
                       (_prepare_text_for_embedding rec_empty)
                       (snapshot toy_libs rec_empty) index_ab
                     = (Raise e0, index_ab)).
Proof.
  eexists. split; [reflexivity|].
  exact (proj1 (@failures_are_vector_store_exceptions Index index toy_libs
                  rec_empty [] [] 0%Z None false index_ab index_ab _)
           eq_refl).
Defined.

Lemma store_content_makes_one_add_witness :
  encode toy_libs (_prepare_text_for_embedding rec_b) = Ok [-1]
  /\ store_content index toy_libs rec_b index_a = (Ok (id rec_b), index_ab).
Proof.
  split; [reflexivity|].
  exact (@store_content_makes_one_add Index index toy_libs rec_b [-1] index_a
           eq_refl).
Defined.

Lemma update_content_loses_entry_when_embedding_fails_witness :
  fetch (lit "a") index_ab
    = Ok {| g_ids := [lit "a"];
            g_documents := [_prepare_text_for_embedding rec_a];
            g_metadatas := [snapshot toy_libs rec_a] |}
  /\ update_content index toy_libs Aux.rec_a_blank index_ab
     = (Ok false, snd (delete (lit "a") index_ab))
  /\ fetch (lit "a") (snd (delete (lit "a") index_ab))
     = Ok {| g_ids := []; g_documents := []; g_metadatas := [] |}.
Proof.
  split; [reflexivity|]. split; [|reflexivity].
  exact (@update_content_loses_entry_when_embedding_fails Index index toy_libs
           Aux.rec_a_blank _ index_ab eq_refl).
Defined.

Lemma search_similar_returns_exactly_k_witness :
  exists rs,
    search_similar_content index toy_libs rec_a 1 true index_ab
      = (Ok rs, index_ab)
    /\ Z.of_nat (List.length rs) = 1%Z.
Proof.
  eexists. split; [reflexivity|].
  apply (@search_similar_returns_exactly_k Index index toy_libs rec_a 1
           index_ab index_ab).
  - lia.
  - intros emb results He Hq. injection He as <-.
    injection Hq as <-. split; [|reflexivity].
    repeat constructor; simpl; intuition discriminate.
  - reflexivity.
Defined.

Lemma search_content_keeps_index_order_witness :
  exists rs,
    search_content index toy_libs (lit "q") 10 None index_ab = (Ok rs, index_ab)
    /\ map sr_id rs = [id rec_a; id rec_b]
    /\ map sr_content rs
       = [_prepare_text_for_embedding rec_a; _prepare_text_for_embedding rec_b].
Proof.
  eexists. split; [reflexivity|].
  destruct (@search_content_keeps_index_order Index index toy_libs (lit "q")
              10 None index_ab index_ab _ eq_refl)
    as (_ & emb & results & He & Hq & Hids & Hdocs & _).
  injection He as <-. injection Hq as <-.
  split; [exact Hids | exact Hdocs].
Defined.

Lemma tool_run_reports_embedding_failure_witness :
  exists r,
    Base._run (lit "chroma_vector_store")
      (Base.tool_of (_execute index toy_libs)) [] index_ab
      = (Base.Ended (Ok r), index_ab)
    /\ Base.success r = false
    /\ Base.data r = None
    /\ Base.error r
       = Some (execute_failed ++ search_failed ++ lit "cannot embed empty text").
Proof.
  exact (@tool_run_reports_embedding_failure Index index toy_libs
           (lit "chroma_vector_store") [] _ index_ab eq_refl).
Defined.

Lemma tool_run_returns_search_results_witness :
  exists r,
    Base._run (lit "chroma_vector_store")
      (Base.tool_of (_execute index toy_libs)) (lit "q") index_ab
      = (Base.Ended (Ok r), index_ab)
    /\ Base.success r = true
    /\ option_map (map sr_id) (Base.data r) = Some [id rec_a; id rec_b]
    /\ dict_lookup (Base.metadata r) (lit "total_results") = Some (VNum 2)
    /\ dict_lookup (Base.metadata r) (lit "collection_size") = Some (VNum 2).
Proof.
  destruct (@tool_run_returns_search_results Index index toy_libs
              (lit "chroma_vector_store") (lit "q") index_ab index_ab _ eq_refl)
    as (r & Hrun & Hs & Hd & _ & Ht & Hc).
  exists r. split; [exact Hrun|]. split; [exact Hs|].
  split; [rewrite Hd; reflexivity|]. split; [exact Ht | exact Hc].
Defined.

(** On a collection whose [count] raises, the results of a search that
    succeeded are lost to the caller of the tool. *)
Example tool_run_loses_results_when_count_raises :
  exists r,
    Base._run (lit "chroma_vector_store")
      (Base.tool_of (_execute Aux.index_without_count toy_libs)) (lit "q")
      index_ab
      = (Base.Ended (Ok r), index_ab)
    /\ Base.success r = false
    /\ Base.data r = None
    /\ Base.error r = Some (execute_failed ++ lit "database is locked").
Proof. eexists. split; [reflexivity|]. repeat split. Qed.

Lemma retrieve_content_of_absent_id_is_none_witness :
  retrieve_content index toy_libs (lit "zzz") index_ab = (Ok None, index_ab).
Proof.
  exact (@retrieve_content_of_absent_id_is_none Index index toy_libs
           (lit "zzz") index_ab _ eq_refl eq_refl).
Defined.

(** X15: on the reference index, whatever it holds, a delete followed by
    a retrieve of the same id returns [True] and then [None]: the entry
    is gone and its absence is not an error. *)
Theorem delete_then_retrieve_is_none (libs : Libraries) (i : pystr) (s : Index) :
  fst (delete_content index i s) = Ok true
  /\ retrieve_content index libs i (snd (delete_content index i s))
     = (Ok None, snd (delete i s)).
Proof.
  split; [reflexivity|].
  rewrite delete_content_run. cbn [snd coll_delete index].
  unfold retrieve_content. run_monad. cbn [coll_get index].
  unfold fetch, delete. cbn [snd].
  rewrite ReferenceFacts.filter_out_then_in. reflexivity.
Qed.

End MoreReferenceFacts.

(* ===================================================================== *)
(** ** The collection statistics ([get_collection_stats]) *)
(* ===================================================================== *)

Module StatsFacts.

Import Models VectorStore VectorStoreStats VectorStoreFacts.

(** *** Keys *)

Lemma same_key_refl (a : scalar) : same_key a a = true.
Proof.
  destruct a; simpl; [apply pystr_eqb_refl | apply Qeq_bool_iff; reflexivity].
Qed.

Lemma same_key_sym (a b : scalar) : same_key a b = same_key b a.
Proof.
  destruct a as [x|x], b as [y|y]; simpl; try reflexivity.
  - destruct (pystr_eqb x y) eqn:E1, (pystr_eqb y x) eqn:E2; try reflexivity.
    + apply pystr_eqb_eq in E1. subst. rewrite pystr_eqb_refl in E2. discriminate.
    + apply pystr_eqb_eq in E2. subst. rewrite pystr_eqb_refl in E1. discriminate.
  - destruct (Qeq_bool x y) eqn:E1, (Qeq_bool y x) eqn:E2; try reflexivity.
    + apply Qeq_bool_iff in E1. symmetry in E1. apply Qeq_bool_iff in E1. congruence.
    + apply Qeq_bool_iff in E2. symmetry in E2. apply Qeq_bool_iff in E2. congruence.
Qed.

Lemma same_key_trans (a b c : scalar) :
  same_key a b = true -> same_key b c = true -> same_key a c = true.
Proof.
  destruct a as [x|x], b as [y|y], c as [z|z]; simpl; try discriminate.
  - rewrite !pystr_eqb_eq. congruence.
  - rewrite !Qeq_bool_iff. intros H1 H2. rewrite H1. exact H2.
Qed.

(** Two keys that are the same key are the same key as the same others. *)
Lemma same_key_congr (a b c : scalar) :
  same_key a b = true -> same_key a c = same_key b c.
Proof.
  intros Hab.
  destruct (same_key a c) eqn:Eac, (same_key b c) eqn:Ebc; try reflexivity.
  - rewrite same_key_sym in Hab.
    rewrite (same_key_trans _ _ _ Hab Eac) in Ebc. discriminate.
  - rewrite (same_key_trans _ _ _ Hab Ebc) in Eac. discriminate.
Qed.

(** *** The counting dict *)

Lemma counter_get_same_key (d : counter) (k k' : scalar) (x : Z) :
  same_key k k' = true -> counter_get d k x = counter_get d k' x.
Proof.
  intros H. induction d as [|[k1 n] d IH]; simpl; [reflexivity|].
  rewrite (same_key_sym k1 k), (same_key_sym k1 k'), (same_key_congr _ _ k1 H).
  rewrite IH. reflexivity.
Qed.

Lemma counter_get_set (d : counter) (k k' : scalar) (v x : Z) :
  counter_get (counter_set d k v) k' x
  = if same_key k k' then v else counter_get d k' x.
Proof.
  induction d as [|[k1 n] d IH]; simpl.
  - destruct (same_key k k'); reflexivity.
  - destruct (same_key k1 k) eqn:E1; simpl.
    + rewrite (same_key_congr _ _ k' E1).
      destruct (same_key k k'); reflexivity.
    + destruct (same_key k1 k') eqn:E2.
      * destruct (same_key k k') eqn:E3; [|reflexivity].
        rewrite same_key_sym in E3.
        rewrite (same_key_trans _ _ _ E2 E3) in E1. discriminate.
      * exact IH.
Qed.

Lemma total_set (d : counter) (k : scalar) (v : Z) :
  total (counter_set d k v) = (total d + v - counter_get d k 0)%Z.
Proof.
  induction d as [|[k1 n] d IH]; simpl.
  - lia.
  - destruct (same_key k1 k); simpl; [lia|].
    change (fold_right (fun kv acc => (snd kv + acc)%Z) 0%Z (counter_set d k v))
      with (total (counter_set d k v)).
    change (fold_right (fun kv acc => (snd kv + acc)%Z) 0%Z d) with (total d).
    lia.
Qed.

Lemma distinct_keys_set (d : counter) (k : scalar) (v : Z) :
  distinct_keys d -> distinct_keys (counter_set d k v).
Proof.
  induction d as [|[k1 n] d IH]; simpl.
  - auto.
  - intros (Hall & Hd). destruct (same_key k1 k) eqn:E; simpl.
    + auto.
    + split; [|apply IH; exact Hd].
      clear IH Hd. induction d as [|[k2 m] d IHd]; simpl.
      * constructor; [exact E | constructor].
      * inversion Hall as [|? ? H2 Hrest]; subst. simpl in H2.
        destruct (same_key k2 k); constructor; auto.
Qed.

(** *** The loop *)

Lemma tally_inv (sample : list (option pydict)) :
  forall (cts srcs cts' srcs' : counter),
    tally sample cts srcs = inr (cts', srcs') ->
    exists mds,
      sample = map Some mds
      /\ (forall k, counter_get cts' k 0
                    = (counter_get cts k 0 + occurrences (lit "content_type") k mds)%Z)
      /\ (forall k, counter_get srcs' k 0
                    = (counter_get srcs k 0 + occurrences (lit "source_name") k mds)%Z)
      /\ total cts' = (total cts + Z.of_nat (List.length mds))%Z
      /\ total srcs' = (total srcs + Z.of_nat (List.length mds))%Z
      /\ (distinct_keys cts -> distinct_keys cts')
      /\ (distinct_keys srcs -> distinct_keys srcs').
Proof.
  induction sample as [|[md|] rest IH]; intros cts srcs cts' srcs'; simpl.
  - intros H; injection H as <- <-. exists []. simpl.
    repeat split; auto; intros; lia.
  - intros H. apply IH in H.
    destruct H as (mds & -> & Hc & Hs & Htc & Hts & Hdc & Hds).
    exists (md :: mds). split; [reflexivity|].
    split; [|split; [|split; [|split; [|split]]]].
    + intros k. rewrite Hc, counter_get_set. simpl.
      destruct (same_key (dict_get md (lit "content_type") unknown) k) eqn:E;
        [rewrite (counter_get_same_key cts _ _ 0 E)|]; lia.
    + intros k. rewrite Hs, counter_get_set. simpl.
      destruct (same_key (dict_get md (lit "source_name") unknown) k) eqn:E;
        [rewrite (counter_get_same_key srcs _ _ 0 E)|]; lia.
    + rewrite Htc, total_set. simpl List.length. lia.
    + rewrite Hts, total_set. simpl List.length. lia.
    + intros H. apply Hdc, distinct_keys_set, H.
    + intros H. apply Hds, distinct_keys_set, H.
  - discriminate.
Qed.

Section Stats.

Variable Coll : Type.
Variable collection : Collection Coll.
Variable coll_sample : Z -> Coll -> result (list (option pydict)).
Variable vector_dimension : Z.

Lemma get_collection_stats_run (s : Coll) :
  get_collection_stats collection coll_sample vector_dimension s =
    (Ok match coll_count collection s with
        | Ok count =>
            match coll_sample (Z.min 100 count) s with
            | Ok sample =>
                match tally sample [] [] with
                | inr (cts, srcs) => Statistics count cts srcs vector_dimension
                | inl text => StatsError text
                end
            | Raise e => StatsError (exn_str e)
            end
        | Raise e => StatsError (exn_str e)
        end, s).
Proof.
  unfold get_collection_stats. run_monad.
  destruct (coll_count collection s) as [count|e]; [|reflexivity].
  destruct (coll_sample (Z.min 100 count) s) as [sample|e]; [|reflexivity].
  destruct (tally sample [] []) as [text|[cts srcs]]; reflexivity.
Qed.

(** X16: when [get_collection_stats] returns statistics, the total is the
    collection's count, the sample was asked with the limit
    [min(100, count)], and each distribution maps every key to the number
    of sampled entries that carry it (an entry without the field counts
    under ["unknown"]); so the counts of each distribution add up to the
    size of the sample, not to the total, and no key occurs twice. *)
Theorem stats_count_the_sample
    (s s' : Coll) (n dim : Z) (cts srcs : counter) :
  get_collection_stats collection coll_sample vector_dimension s
    = (Ok (Statistics n cts srcs dim), s') ->
  s' = s /\ coll_count collection s = Ok n /\ dim = vector_dimension
  /\ exists mds,
       coll_sample (Z.min 100 n) s = Ok (map Some mds)
       /\ (forall k, counter_get cts k 0 = occurrences (lit "content_type") k mds)
       /\ (forall k, counter_get srcs k 0 = occurrences (lit "source_name") k mds)
       /\ total cts = Z.of_nat (List.length mds)
       /\ total srcs = Z.of_nat (List.length mds)
       /\ distinct_keys cts /\ distinct_keys srcs.
Proof.
  rewrite get_collection_stats_run. intros H. injection H as H <-.
  destruct (coll_count collection s) as [count|e] eqn:Ecount; [|discriminate].
  destruct (coll_sample (Z.min 100 count) s) as [sample|e] eqn:Esample;
    [|discriminate].
  destruct (tally sample [] []) as [text|[cts0 srcs0]] eqn:Et; [discriminate|].
  injection H as <- <- <- <-.
  apply tally_inv in Et.
  destruct Et as (mds & -> & Hc & Hs & Htc & Hts & Hdc & Hds).
  split; [reflexivity|]. split; [reflexivity|]. split; [reflexivity|].
  exists mds. simpl in *.
  split; [exact Esample|]. split; [intros k; rewrite Hc; lia|].
  split; [intros k; rewrite Hs; lia|].
  split; [lia|]. split; [lia|]. auto.
Qed.

(** X17: [get_collection_stats] never raises and leaves the collection as
    it was. When the call of [count] or the sampling call raises, or when
    a sampled entry has no metadata, it returns a dict with the single key
    [error] and the exception's text. *)
Theorem stats_never_raise (s : Coll) :
  exists d,
    get_collection_stats collection coll_sample vector_dimension s = (Ok d, s)
    /\ (forall e,
          coll_count collection s = Raise e -> d = StatsError (exn_str e))
    /\ (forall count e,
          coll_count collection s = Ok count ->
          coll_sample (Z.min 100 count) s = Raise e ->
          d = StatsError (exn_str e))
    /\ (forall count sample,
          coll_count collection s = Ok count ->
          coll_sample (Z.min 100 count) s = Ok sample ->
          In None sample ->
          d = StatsError (lit "'NoneType' object has no attribute 'get'")).
Proof.
  rewrite get_collection_stats_run. eexists. split; [reflexivity|].
  split; [|split].
  - intros e ->. reflexivity.
  - intros count e -> ->. reflexivity.
  - intros count sample -> -> Hin.
    assert (Ht : forall cts srcs,
               tally sample cts srcs
               = inl (lit "'NoneType' object has no attribute 'get'")).
    { induction sample as [|[md|] rest IH]; intros cts srcs; simpl.
      - destruct Hin.
      - apply IH. destruct Hin as [H|H]; [discriminate | exact H].
      - reflexivity. }
    rewrite Ht. reflexivity.
Qed.

(** X18: on a collection whose sample is empty the statistics are the
    count and two empty distributions, not an error. *)
Theorem stats_of_empty_sample (s : Coll) (count : Z) :
  coll_count collection s = Ok count ->
  coll_sample (Z.min 100 count) s = Ok [] ->
  get_collection_stats collection coll_sample vector_dimension s
    = (Ok (Statistics count [] [] vector_dimension), s).
Proof.
  intros Hc H. rewrite get_collection_stats_run, Hc, H. reflexivity.
Qed.

End Stats.

Lemma stats_count_the_sample_witness :
  exists cts srcs,
    get_collection_stats Reference.index Aux.reference_sample 384
      Reference.index_ab
    = (Ok (Statistics 2 cts srcs 384), Reference.index_ab)
    /\ counter_get cts (VStr (lit "blog_post")) 0 = 2%Z
    /\ total cts = 2%Z /\ total srcs = 2%Z.
Proof.
  eexists. eexists. split; [reflexivity|].
  destruct (@stats_count_the_sample Reference.Index Reference.index
              Aux.reference_sample 384 Reference.index_ab Reference.index_ab
              _ _ _ _ eq_refl)
    as (_ & _ & _ & mds & _ & _ & _ & Htc & Hts & _).
  split; [reflexivity|]. split; [reflexivity | reflexivity].
Defined.

Lemma stats_of_empty_sample_witness :
  get_collection_stats Reference.index Aux.reference_sample 384 []
  = (Ok (Statistics 0 [] [] 384), []).
Proof.
  exact (@stats_of_empty_sample Reference.Index Reference.index
           Aux.reference_sample 384 [] 0%Z eq_refl eq_refl).
Defined.

(** The tally of a sample with a repeated key and an entry without
    fields. *)
Example tally_example :
  tally Aux.sample_metadatas [] []
  = inr ([ (VStr (lit "academic_paper"), 2%Z); (VStr (lit "blog_post"), 1%Z);
           (unknown, 1%Z) ],
         [ (VStr (lit "arxiv"), 2%Z); (VStr (lit "blog"), 1%Z);
           (unknown, 1%Z) ]).
Proof. reflexivity. Qed.

End StatsFacts.

(* ===================================================================== *)
(** ** The log-level validator ([config.py]) *)
(* ===================================================================== *)

Module ConfigFacts.

Import Config.

Lemma existsb_pystr_in (x : pystr) (l : list pystr) :
  existsb (pystr_eqb x) l = true <-> In x l.
Proof.
  rewrite existsb_exists. split.
  - intros (y & Hin & Heq). apply pystr_eqb_eq in Heq. subst. exact Hin.
  - intros Hin. exists x. split; [exact Hin | apply pystr_eqb_refl].
Qed.

(** X19: [validate_log_level] accepts a value exactly when its upper-case
    form is one of DEBUG, INFO, WARNING, ERROR, CRITICAL, and then returns
    that upper-case form; any other value raises a [ValueError]. *)
Theorem validate_log_level_accepts_the_five_levels
    (upper : pystr -> pystr) (v : pystr) :
  (In (upper v) valid_levels /\ validate_log_level upper v = Ok (upper v))
  \/ (~ In (upper v) valid_levels
      /\ validate_log_level upper v = Raise invalid_level
      /\ exn_class invalid_level = ValueError).
Proof.
  unfold validate_log_level.
  destruct (existsb (pystr_eqb (upper v)) valid_levels) eqn:E; cbn [negb].
  - left. split; [apply existsb_pystr_in; exact E | reflexivity].
  - right. split; [|split; reflexivity].
    intros Hin. apply existsb_pystr_in in Hin. congruence.
Qed.

Lemma validate_log_level_levels_only (upper : pystr -> pystr) (v r : pystr) :
  validate_log_level upper v = Ok r -> In r valid_levels /\ r = upper v.
Proof.
  unfold validate_log_level.
  destruct (existsb (pystr_eqb (upper v)) valid_levels) eqn:E; cbn [negb];
    [|discriminate].
  intros H; injection H as <-. split; [|reflexivity].
  apply existsb_pystr_in; exact E.
Qed.

Lemma ascii_upper_fixes_levels (l : pystr) :
  In l valid_levels -> ascii_upper l = l.
Proof.
  intros H. repeat (destruct H as [<-|H]; [reflexivity|]). destruct H.
Qed.

(** X20: the validator is idempotent: as upper-casing leaves the five
    level names as they are, a value that was accepted is accepted again
    and comes back unchanged. *)
Theorem validate_log_level_is_idempotent
    (upper : pystr -> pystr) (v r : pystr) :
  (forall l, In l valid_levels -> upper l = l) ->
  validate_log_level upper v = Ok r ->
  In r valid_levels /\ validate_log_level upper r = Ok r.
Proof.
  intros Hfix H.
  destruct (validate_log_level_levels_only upper v H) as (Hin & _).
  split; [exact Hin|].
  unfold validate_log_level. rewrite (Hfix _ Hin).
  apply existsb_pystr_in in Hin. rewrite Hin. reflexivity.
Qed.

Lemma validate_log_level_is_idempotent_witness :
  validate_log_level ascii_upper (lit "warning") = Ok (lit "WARNING")
  /\ In (lit "WARNING") valid_levels
  /\ validate_log_level ascii_upper (lit "WARNING") = Ok (lit "WARNING").
Proof.
  split; [reflexivity|].
  exact (@validate_log_level_is_idempotent ascii_upper (lit "warning")
           (lit "WARNING") ascii_upper_fixes_levels eq_refl).
Defined.

(** Lower and mixed case are accepted, other names are not. *)
Example validate_log_level_examples :
  validate_log_level ascii_upper (lit "Info") = Ok (lit "INFO")
  /\ validate_log_level ascii_upper (lit "verbose") = Raise invalid_level.
Proof. split; reflexivity. Qed.

End ConfigFacts.

(* ===================================================================== *)
(** ** Fetching from arXiv ([arxiv_tool.py]) *)
(* ===================================================================== *)

Module ArxivFacts.

Import Models VectorStore Arxiv.

Lemma datetime_lt_aware_naive (a : stamp) (start : datetime) :
  aware a = true -> datetime_lt a (naive start) = Raise naive_vs_aware.
Proof.
  intros Ha. unfold datetime_lt. rewrite Ha. reflexivity.
Qed.

Section Tool.

Variable Paper : Type.
Variable now : datetime.
Variable minus_days : datetime -> Z -> result datetime.
Variable results : Search -> list (result Paper).
Variable published : Paper -> stamp.
Variable convert : Paper -> result ContentItem.

Lemma fetch_loop_on_aware_paper (start : datetime) (paper : Paper)
    (rest : list (result Paper)) (acc : list ContentItem) :
  aware (published paper) = true ->
  fetch_loop published convert (naive start) (Ok paper :: rest) acc
  = Raise naive_vs_aware.
Proof.
  intros Ha. cbn [fetch_loop].
  rewrite (datetime_lt_aware_naive _ start Ha). reflexivity.
Qed.

Lemma keyword_loop_inv (stream : list (result Paper)) :
  forall (acc items : list ContentItem),
    keyword_loop convert stream acc = Ok items ->
    exists papers new,
      stream = map Ok papers
      /\ items = acc ++ new
      /\ Forall2 (fun p it => convert p = Ok it) papers new.
Proof.
  induction stream as [|[paper|e] rest IH]; intros acc items; simpl.
  - intros H; injection H as <-. exists [], []. rewrite app_nil_r.
    repeat split. constructor.
  - unfold and_then at 1.
    destruct (convert paper) as [it|e] eqn:Ec; [|discriminate].
    intros H. apply IH in H. destruct H as (papers & new & -> & -> & Hall).
    exists (paper :: papers), (it :: new). simpl.
    rewrite <- app_assoc. repeat split. constructor; assumption.
  - discriminate.
Qed.

(** X21: the start of the window comes from [datetime.now()], which is
    naive, and the papers of the arXiv client carry a timezone, so the
    comparison at the head of the loop raises on the first paper: with
    such papers [fetch_content] returns exactly when the start of the
    window can be computed and the client gives no paper at all, and what
    it returns is the empty list. *)
Theorem fetch_content_returns_only_without_papers
    (max_results days_back : Z) (categories : option (list pystr))
    (items : list ContentItem) :
  (forall paper, aware (published paper) = true) ->
  fetch_content now minus_days results published convert
    max_results days_back categories = inl items
  <-> (items = []
       /\ results (fetch_search max_results categories) = []
       /\ exists start, minus_days now days_back = Ok start).
Proof.
  intros Haware. unfold fetch_content.
  fold (fetch_search max_results categories).
  destruct (minus_days now days_back) as [start|e0].
  - destruct (results (fetch_search max_results categories))
      as [|[paper|e] rest].
    + cbn [fetch_loop]. split.
      * intros H; injection H as <-. split; [reflexivity|].
        split; [reflexivity|]. exists start; reflexivity.
      * intros (-> & _ & _). reflexivity.
    + rewrite (fetch_loop_on_aware_paper start paper rest [] (Haware paper)).
      split; [discriminate|]. intros (_ & H & _); discriminate.
    + cbn [fetch_loop]. split; [discriminate|].
      intros (_ & H & _); discriminate.
  - split; [discriminate|]. intros (_ & _ & start & H); discriminate.
Qed.

(** X22: when the first paper the client gives carries a timezone,
    [fetch_content] converts nothing and reads no further paper: the
    comparison with the naive start of the window raises a [TypeError],
    which the handler turns into a [DataSourceException] whose text is
    the prefix ["ArXiv API错误: "] followed by the text of the
    [TypeError]. *)
Theorem fetch_content_raises_on_first_paper
    (max_results days_back : Z) (categories : option (list pystr))
    (start : datetime) (paper : Paper) (rest : list (result Paper)) :
  minus_days now days_back = Ok start ->
  results (fetch_search max_results categories) = Ok paper :: rest ->
  aware (published paper) = true ->
  fetch_content now minus_days results published convert
    max_results days_back categories
  = inr (DataSourceException
           (api_error
            ++ lit "can't compare offset-naive and offset-aware datetimes")).
Proof.
  intros Hs Hr Ha. unfold fetch_content.
  fold (fetch_search max_results categories).
  rewrite Hs, Hr, (fetch_loop_on_aware_paper start paper rest [] Ha).
  reflexivity.
Qed.

(** X23: [get_recent_papers] never looks at less than a day: for any
    number of hours below 48, also zero or a negative one, it fetches
    the last day, with at most 100 results and the default categories;
    from 24 hours on the window is the number of whole days. *)
Theorem get_recent_papers_window (hours : Z) :
  ((hours < 48)%Z ->
     get_recent_papers now minus_days results published convert hours
     = fetch_content now minus_days results published convert
         100 1 None)
  /\ ((24 <= hours)%Z ->
        get_recent_papers now minus_days results published convert hours
        = fetch_content now minus_days results published convert
            100 (hours / 24) None).
Proof.
  unfold get_recent_papers. split; intros H.
  - assert (hours / 24 < 2)%Z by (apply Z.div_lt_upper_bound; lia).
    rewrite Z.max_l by lia. reflexivity.
  - assert (1 <= hours / 24)%Z by (apply Z.div_le_lower_bound; lia).
    rewrite Z.max_r by lia. reflexivity.
Qed.

(** X24: what [search_papers_by_keyword] returns is the conversion of
    every paper the client gave, in the client's order, for a search that
    joins the quoted keywords with AND and sorts by relevance. *)
Theorem search_papers_by_keyword_converts_all
    (keywords : list pystr) (max_results : Z) (items : list ContentItem) :
  search_papers_by_keyword results convert keywords max_results = inl items ->
  exists papers,
    results
      {| query :=
           py_join (lit " AND ")
             (map (fun keyword => [34%N] ++ keyword ++ [34%N]) keywords);
         max_results := max_results;
         sort_by := Relevance;
         sort_order := Descending |}
    = map Ok papers
    /\ Forall2 (fun p it => convert p = Ok it) papers items.
Proof.
  unfold search_papers_by_keyword.
  match goal with
  | |- context [keyword_loop convert (results ?q) []] =>
      destruct (keyword_loop convert (results q) []) as [items0|e] eqn:El;
        [|discriminate]
  end.
  intros H; injection H as <-.
  apply keyword_loop_inv in El. destruct El as (papers & new & Hs & -> & Hall).
  exists papers. auto.
Qed.

End Tool.

Lemma fetch_content_returns_only_without_papers_witness :
  (forall paper, aware (Aux.toy_published paper) = true)
  /\ fetch_content (10 * Aux.day)%Z Aux.toy_minus_days Aux.no_papers
       Aux.toy_published Aux.paper_item 50 1 None = inl [].
Proof.
  split; [intros paper; reflexivity|].
  apply (proj2 (@fetch_content_returns_only_without_papers Z (10 * Aux.day)%Z
                  Aux.toy_minus_days Aux.no_papers Aux.toy_published
                  Aux.paper_item 50 1 None []
                  (fun paper => eq_refl))).
  split; [reflexivity|]. split; [reflexivity|].
  exists (9 * Aux.day)%Z. reflexivity.
Defined.

Lemma fetch_content_raises_on_first_paper_witness :
  fetch_content (10 * Aux.day)%Z Aux.toy_minus_days Aux.paper_stream
    Aux.toy_published Aux.paper_item 50 1 None
  = inr (DataSourceException
           (api_error
            ++ lit "can't compare offset-naive and offset-aware datetimes")).
Proof.
  apply (@fetch_content_raises_on_first_paper Z (10 * Aux.day)%Z
           Aux.toy_minus_days Aux.paper_stream Aux.toy_published
           Aux.paper_item 50 1 None (9 * Aux.day)%Z (10 * Aux.day)%Z
           [Ok (3 * Aux.day)%Z; Ok (9 * Aux.day + 1)%Z]).
  - reflexivity.
  - reflexivity.
  - reflexivity.
Defined.

Lemma get_recent_papers_window_witness :
  get_recent_papers (10 * Aux.day)%Z Aux.toy_minus_days Aux.paper_stream
    Aux.toy_published Aux.paper_item 1
  = fetch_content (10 * Aux.day)%Z Aux.toy_minus_days Aux.paper_stream
      Aux.toy_published Aux.paper_item 100 1 None.
Proof.
  exact (proj1 (@get_recent_papers_window Z (10 * Aux.day)%Z
                  Aux.toy_minus_days Aux.paper_stream
                  Aux.toy_published Aux.paper_item 1)
           ltac:(lia)).
Defined.

Lemma search_papers_by_keyword_converts_all_witness :
  exists items,
    search_papers_by_keyword Aux.paper_stream Aux.paper_item
      [lit "graph"; lit "neural network"] 20 = inl items
    /\ map published_at items
       = [(10 * Aux.day)%Z; (3 * Aux.day)%Z; (9 * Aux.day + 1)%Z].
Proof.
  eexists. split; [reflexivity|].
  destruct (@search_papers_by_keyword_converts_all Z Aux.paper_stream
              Aux.paper_item [lit "graph"; lit "neural network"] 20 _ eq_refl)
    as (papers & _ & _).
  reflexivity.
Defined.

End ArxivFacts.
